(** * Backtest accounting engine of [trading_strategies.py]

    A shallow embedding of the ledger ([TradingBacktester]), of the three
    strategy classes, of the metrics calculation and of the driver, followed
    by the properties of the specification and of the code.

    Conventions of the embedding.
    - The program computes on binary64 numbers.  The main embedding computes
      on exact rationals ([Q]): comparisons, counts and the shape of the
      computed expressions are those of the program, and the theorems about
      it state an equation between numbers only as the expression the
      program evaluates, never through the laws of a field, which rounding
      breaks.  Where rounding decides a property, the module [Binary64]
      evaluates the same methods on the floats of the kernel.
    - A true division [a / b] raises [ZeroDivisionError] when [b] is zero.
    - A Python [dict] used as a map is a [gmap string _]; the dict built by
      [add_trade] has a fixed set of keys and is a record.
    - A method of an object is a function from the state of the object to
      an outcome (a value or an exception) and the state afterwards. *)

From Stdlib Require Import QArith Qminmax Qabs Lqa PrimFloat.
From stdpp Require Import base option list strings gmap fin_maps.

#[local] Set Warnings "-inexact-float".
Local Open Scope Q_scope.

(** ** Python values, exceptions and outcomes *)

(** The values found in a token dictionary: numbers, strings and [None]. *)
Inductive pyval : Type :=
  | PyNum (q : Q)
  | PyStr (s : string)
  | PyNone.

Inductive exn : Type :=
  | ZeroDivisionError
  | TypeError.

(** The outcome of evaluating an expression. *)
Inductive res (A : Type) : Type :=
  | Ret (a : A)
  | Raise (e : exn).
Arguments Ret {A} a.
Arguments Raise {A} e.

Definition res_bind {A B} (r : res A) (k : A -> res B) : res B :=
  match r with
  | Ret a => k a
  | Raise e => Raise e
  end.

Declare Scope py_scope.
Delimit Scope py_scope with py.
Notation "'let?' x ':=' r 'in' k" := (res_bind r (fun x => k))
  (at level 10, x name, r at level 100, k at level 200) : py_scope.
Local Open Scope py_scope.

(** [a / b] on numbers. *)
Definition truediv (a b : Q) : res Q :=
  if Qeq_bool b 0 then Raise ZeroDivisionError else Ret (a / b).

(** [a > b], [a < b], [a >= b] on numbers. *)
Definition Qgtb (a b : Q) : bool := negb (Qle_bool a b).
Definition Qltb (a b : Q) : bool := negb (Qle_bool b a).
Definition Qgeb (a b : Q) : bool := Qle_bool b a.

(** The builtin [max(a, b)]: [b] when [b > a], else [a]. *)
Definition py_max (a b : Q) : Q := if Qgtb b a then b else a.

Definition Qsum (l : list Q) : Q := foldr Qplus 0 l.

(** The mean of a non-empty pandas column. *)
Definition of_nat (n : nat) : Q := inject_Z (Z.of_nat n).
Definition mean (l : list Q) : Q := Qsum l / of_nat (length l).

(** Comparison and arithmetic on dictionary values: numbers compare with
    numbers and strings with strings; any other pair raises [TypeError],
    except for [==], which is false on a number and a string and true on
    [None] and [None]. *)
Definition py_ge (a b : pyval) : res bool :=
  match a, b with
  | PyNum x, PyNum y => Ret (Qgeb x y)
  | PyStr x, PyStr y => Ret (String.leb y x)
  | _, _ => Raise TypeError
  end.

Definition py_gt (a b : pyval) : res bool :=
  match a, b with
  | PyNum x, PyNum y => Ret (Qgtb x y)
  | PyStr x, PyStr y => Ret (String.ltb y x)
  | _, _ => Raise TypeError
  end.

Definition py_lt (a b : pyval) : res bool :=
  match a, b with
  | PyNum x, PyNum y => Ret (Qltb x y)
  | PyStr x, PyStr y => Ret (String.ltb x y)
  | _, _ => Raise TypeError
  end.

Definition py_eq (a b : pyval) : bool :=
  match a, b with
  | PyNum x, PyNum y => Qeq_bool x y
  | PyStr x, PyStr y => String.eqb x y
  | PyNone, PyNone => true
  | _, _ => false
  end.

(** [a * b] for a float literal [a]. *)
Definition py_mul (a : Q) (b : pyval) : res pyval :=
  match b with
  | PyNum y => Ret (PyNum (a * y))
  | PyStr _ | PyNone => Raise TypeError
  end.

(** [a and b], [a or b]: the right operand is evaluated only when needed. *)
Definition py_and (a b : res bool) : res bool :=
  let? x := a in if x then b else Ret false.
Definition py_or (a b : res bool) : res bool :=
  let? x := a in if x then Ret true else b.
Infix "and" := py_and (at level 72, right associativity) : py_scope.
Infix "or" := py_or (at level 73, right associativity) : py_scope.

(** [d.get(key, dflt)]. *)
Definition get (d : gmap string pyval) (key : string) (dflt : pyval) : pyval :=
  default dflt (d !! key).

(** ** Methods: state and exceptions *)

Definition method (S A : Type) : Type := S -> res A * S.

Definition mret {S A} (a : A) : method S A := fun s => (Ret a, s).
Definition lift {S A} (r : res A) : method S A := fun s => (r, s).
Definition read {S A} (f : S -> A) : method S A := fun s => (Ret (f s), s).
Definition modify {S} (f : S -> S) : method S unit := fun s => (Ret tt, f s).
Definition mbind {S A B} (m : method S A) (k : A -> method S B) : method S B :=
  fun s =>
    match m s with
    | (Ret a, s') => k a s'
    | (Raise e, s') => (Raise e, s')
    end.

Notation "x <- m ;; k" := (mbind m (fun x => k))
  (at level 100, m at next level, right associativity) : py_scope.
Notation "m ;; k" := (mbind m (fun _ => k))
  (at level 100, right associativity) : py_scope.

(** [for x in l: s = body(s, x)]. *)
Fixpoint for_each {A S} (body : S -> A -> res S) (l : list A) (s : S) : res S :=
  match l with
  | [] => Ret s
  | x :: l' => let? s' := body s x in for_each body l' s'
  end.

(** A [datetime] is a number of seconds; [timedelta(days=d)]. *)
Definition timedelta (days : Z) : Z := (days * 86400)%Z.

(** A number of the metrics dictionary; [Inf] is [float('inf')]. *)
Inductive metric : Type :=
  | Num (q : Q)
  | Inf.

(** ** The ledger *)

Module TradingBacktester.

(** The dict built by [add_trade]. *)
Record trade : Type := Trade {
  symbol : pyval;
  entry_price : Q;
  exit_price : Q;
  quantity : Q;
  entry_date : Z;
  exit_date : Z;
  profit_loss : Q;
  pnl_pct : Q;
  strategy : string
}.

(** The attributes of an instance. *)
Record t : Type := Backtester {
  initial_capital : Q;
  current_capital : Q;
  positions : gmap string pyval;
  trades : list trade;
  portfolio_history : list pyval
}.

Definition set_trades (f : list trade -> list trade) (self : t) : t :=
  {| initial_capital := self.(initial_capital);
     current_capital := self.(current_capital);
     positions := self.(positions);
     trades := f self.(trades);
     portfolio_history := self.(portfolio_history) |}.

Definition set_current_capital (f : Q -> Q) (self : t) : t :=
  {| initial_capital := self.(initial_capital);
     current_capital := f self.(current_capital);
     positions := self.(positions);
     trades := self.(trades);
     portfolio_history := self.(portfolio_history) |}.

Definition __init__ (initial_capital : Q) : res t :=
  Ret {| initial_capital := initial_capital;
         current_capital := initial_capital;
         positions := ∅;
         trades := [];
         portfolio_history := [] |}.

Definition add_trade (symbol : pyval) (entry_price exit_price quantity : Q)
    (entry_date exit_date : Z) (strategy : string) : method t trade :=
  let profit_loss := (exit_price - entry_price) * quantity in
  pnl_pct <- lift (let? r := truediv (exit_price - entry_price) entry_price in
                   Ret (r * 100));;
  let trade :=
    {| symbol := symbol;
       entry_price := entry_price;
       exit_price := exit_price;
       quantity := quantity;
       entry_date := entry_date;
       exit_date := exit_date;
       profit_loss := profit_loss;
       pnl_pct := pnl_pct;
       strategy := strategy |} in
  modify (set_trades (fun l => l ++ [trade]));;
  modify (set_current_capital (fun c => c + profit_loss));;
  mret trade.

(** The body of the drawdown loop; the loop state is
    [(max_drawdown, peak)]. *)
Definition drawdown_body (st : Q * Q) (trade : trade) : res (Q * Q) :=
  let '(max_drawdown, peak) := st in
  let current_value := peak + trade.(profit_loss) in
  let peak := if Qgtb current_value peak then current_value else peak in
  let? r := truediv (peak - current_value) peak in
  let drawdown := r * 100 in
  Ret (py_max max_drawdown drawdown, peak).

Definition is_win (trade : trade) : bool := Qgtb trade.(profit_loss) 0.
Definition is_loss (trade : trade) : bool := Qltb trade.(profit_loss) 0.

Definition calculate_metrics : method t (gmap string metric) :=
  self <- read id;;
  match self.(trades) with
  | [] => mret ∅
  | _ :: _ =>
      let df := self.(trades) in
      let total_trades := length df in
      let winning_trades := length (List.filter is_win df) in
      let losing_trades := length (List.filter is_loss df) in
      win_rate <- lift (if (0 <? total_trades)%nat
                        then let? r := truediv (of_nat winning_trades)
                                               (of_nat total_trades) in
                             Ret (r * 100)
                        else Ret 0);;
      total_return <- lift (let? r := truediv (self.(current_capital)
                                               - self.(initial_capital))
                                              self.(initial_capital) in
                            Ret (r * 100));;
      let avg_win := if (0 <? winning_trades)%nat
                     then mean (map pnl_pct (List.filter is_win df))
                     else 0 in
      let avg_loss := if (0 <? losing_trades)%nat
                      then mean (map pnl_pct (List.filter is_loss df))
                      else 0 in
      let profit_factor :=
        if (0 <? losing_trades)%nat
        then Num (Qabs (Qsum (map profit_loss (List.filter is_win df))
                        / Qsum (map profit_loss (List.filter is_loss df))))
        else Inf in
      scan <- lift (for_each drawdown_body self.(trades)
                      (0, self.(initial_capital)));;
      let max_drawdown := fst scan in
      mret (<["total_trades" := Num (of_nat total_trades)]>
           (<["winning_trades" := Num (of_nat winning_trades)]>
           (<["losing_trades" := Num (of_nat losing_trades)]>
           (<["win_rate" := Num win_rate]>
           (<["total_return" := Num total_return]>
           (<["avg_win" := Num avg_win]>
           (<["avg_loss" := Num avg_loss]>
           (<["profit_factor" := profit_factor]>
           (<["max_drawdown" := Num max_drawdown]>
           (<["final_capital" := Num self.(current_capital)]> ∅))))))))))
  end.

End TradingBacktester.

(** ** The strategies

    The three classes hold a reference to one shared [TradingBacktester];
    their methods act on its state.  [simulate_trade] reads the clock twice,
    for the entry date and then for the exit date: [now1] and [now2] are
    these two readings of [datetime.now()]. *)

Module SignalReversalStrategy.
Import TradingBacktester.

Definition name : string := "TM Signal-Driven Reversal".

Definition evaluate_entry (token_data : gmap string pyval) : res bool :=
  py_ge (get token_data "TM_TRADER_GRADE" (PyNum 0)) (PyNum 80) and
  py_lt (get token_data "HOLDING_RETURNS" (PyNum 0)) (PyNum 0.10) and
  py_ge (get token_data "TRADING_SIGNALS_RETURNS" (PyNum 0)) (PyNum 1.00).

Definition simulate_trade (token_data : gmap string pyval)
    (entry_price exit_price : Q) (position_size : option Q) (now1 now2 : Z)
    : method t (option trade) :=
  let position_size := default 0.05 position_size in
  accepted <- lift (evaluate_entry token_data);;
  if accepted : bool then
    capital <- read current_capital;;
    quantity <- lift (truediv (capital * position_size) entry_price);;
    trade <- add_trade (get token_data "TOKEN_SYMBOL" (PyStr "UNKNOWN"))
               entry_price exit_price quantity
               (now1 - timedelta 30)%Z now2 name;;
    mret (Some trade)
  else mret None.

End SignalReversalStrategy.

Module LongTermHoldStrategy.
Import TradingBacktester.

Definition name : string := "TM Grade & Long-Term Hold".

Definition evaluate_entry (token_data : gmap string pyval) : res bool :=
  let trading_returns := get token_data "TRADING_SIGNALS_RETURNS" (PyNum 0) in
  let holding_returns := get token_data "HOLDING_RETURNS" (PyNum 0) in
  py_ge (get token_data "TM_TRADER_GRADE" (PyNum 0)) (PyNum 88) and
  py_ge holding_returns (PyNum 1.00) and
  ((let? half := py_mul 0.5 holding_returns in py_lt trading_returns half) or
   py_lt trading_returns (PyNum 0)).

Definition simulate_trade (token_data : gmap string pyval)
    (entry_price exit_price : Q) (position_size : option Q) (now1 now2 : Z)
    : method t (option trade) :=
  let position_size := default 0.15 position_size in
  accepted <- lift (evaluate_entry token_data);;
  if accepted : bool then
    capital <- read current_capital;;
    quantity <- lift (truediv (capital * position_size) entry_price);;
    trade <- add_trade (get token_data "TOKEN_SYMBOL" (PyStr "UNKNOWN"))
               entry_price exit_price quantity
               (now1 - timedelta 180)%Z now2 name;;
    mret (Some trade)
  else mret None.

End LongTermHoldStrategy.

Module TrendFollowingStrategy.
Import TradingBacktester.

Definition name : string := "TM Trend-Aligned Signal Following".

Definition evaluate_entry (token_data : gmap string pyval) : res bool :=
  let trading_returns := get token_data "TRADING_SIGNALS_RETURNS" (PyNum 0) in
  let holding_returns := get token_data "HOLDING_RETURNS" (PyNum 0) in
  py_ge (get token_data "TM_TRADER_GRADE" (PyNum 0)) (PyNum 75) and
  Ret (py_eq (get token_data "TOKEN_TREND" (PyNum 0)) (PyNum 1)) and
  py_gt trading_returns holding_returns and
  py_gt trading_returns (PyNum 0).

Definition simulate_trade (token_data : gmap string pyval)
    (entry_price exit_price : Q) (position_size : option Q) (now1 now2 : Z)
    : method t (option trade) :=
  let position_size := default 0.08 position_size in
  accepted <- lift (evaluate_entry token_data);;
  if accepted : bool then
    capital <- read current_capital;;
    quantity <- lift (truediv (capital * position_size) entry_price);;
    trade <- add_trade (get token_data "TOKEN_SYMBOL" (PyStr "UNKNOWN"))
               entry_price exit_price quantity
               (now1 - timedelta 14)%Z now2 name;;
    mret (Some trade)
  else mret None.

End TrendFollowingStrategy.

(** The strategy classes share the interface [evaluate_entry],
    [simulate_trade]. *)
Inductive strategy : Type :=
  | SignalReversal
  | LongTermHold
  | TrendFollowing.

Definition evaluate_entry (s : strategy) : gmap string pyval -> res bool :=
  match s with
  | SignalReversal => SignalReversalStrategy.evaluate_entry
  | LongTermHold => LongTermHoldStrategy.evaluate_entry
  | TrendFollowing => TrendFollowingStrategy.evaluate_entry
  end.

Definition simulate_trade (s : strategy)
    : gmap string pyval -> Q -> Q -> option Q -> Z -> Z ->
      method TradingBacktester.t (option TradingBacktester.trade) :=
  match s with
  | SignalReversal => SignalReversalStrategy.simulate_trade
  | LongTermHold => LongTermHoldStrategy.simulate_trade
  | TrendFollowing => TrendFollowingStrategy.simulate_trade
  end.

(** The default of the parameter [position_size]. *)
Definition position_size_default (s : strategy) : Q :=
  match s with
  | SignalReversal => 0.05
  | LongTermHold => 0.15
  | TrendFollowing => 0.08
  end.

(** ** Runs of a ledger

    A client of a ledger calls its methods, directly or through a strategy;
    an exception raised by a call is caught by the client and the run goes
    on from the state the call left. *)
Inductive call : Type :=
  | Call_add_trade (symbol : pyval) (entry_price exit_price quantity : Q)
      (entry_date exit_date : Z) (strategy : string)
  | Call_simulate_trade (s : strategy) (token_data : gmap string pyval)
      (entry_price exit_price : Q) (position_size : option Q) (now1 now2 : Z)
  | Call_calculate_metrics.

Definition exec (c : call) (self : TradingBacktester.t) : TradingBacktester.t :=
  match c with
  | Call_add_trade sym en ex qty d1 d2 strat =>
      snd (TradingBacktester.add_trade sym en ex qty d1 d2 strat self)
  | Call_simulate_trade s td en ex ps now1 now2 =>
      snd (simulate_trade s td en ex ps now1 now2 self)
  | Call_calculate_metrics =>
      snd (TradingBacktester.calculate_metrics self)
  end.

(** The states a run goes through, after each call in turn. *)
Fixpoint states (cs : list call) (self : TradingBacktester.t)
    : list TradingBacktester.t :=
  match cs with
  | [] => []
  | c :: cs' => exec c self :: states cs' (exec c self)
  end.

(** The state a run ends in. *)
Definition run (cs : list call) (self : TradingBacktester.t)
    : TradingBacktester.t :=
  fold_left (fun s c => exec c s) cs self.

(** ** Sample data *)

(** A row of the table of [run_backtest_simulation]. *)
Definition token (sym : string) (grade holding signals trend : Q)
    : gmap string pyval :=
  <["TOKEN_SYMBOL" := PyStr sym]>
  (<["TM_TRADER_GRADE" := PyNum grade]>
  (<["HOLDING_RETURNS" := PyNum holding]>
  (<["TRADING_SIGNALS_RETURNS" := PyNum signals]>
  (<["TOKEN_TREND" := PyNum trend]> ∅)))).

Definition REQ := token "REQ" 88.21 3.7339 (-0.8131) 1.
Definition CRV := token "CRV" 85 (-0.9423) 6.8534 1.

(** The snapshots of the scenarios of the reversal policy. *)
Definition scenario_reversal_reject : gmap string pyval :=
  <["TM_TRADER_GRADE" := PyNum 88.21]>
  (<["HOLDING_RETURNS" := PyNum 3.7339]>
  (<["TRADING_SIGNALS_RETURNS" := PyNum (-0.8131)]> ∅)).

Definition scenario_reversal_accept : gmap string pyval :=
  <["TM_TRADER_GRADE" := PyNum 85]>
  (<["HOLDING_RETURNS" := PyNum (-0.9423)]>
  (<["TRADING_SIGNALS_RETURNS" := PyNum 6.8534]>
  (<["TOKEN_TREND" := PyNum 1]> ∅))).

(** The ledger [TradingBacktester(initial_capital=10000)]. *)
Definition fresh_ledger : TradingBacktester.t :=
  {| TradingBacktester.initial_capital := 10000;
     TradingBacktester.current_capital := 10000;
     TradingBacktester.positions := ∅;
     TradingBacktester.trades := [];
     TradingBacktester.portfolio_history := [] |}.

(** A ledger with a winning trade (+1000), a trade that made nothing and a
    losing trade (-550), appended in this order. *)
Definition sample_trade (sym : string) (exit_price quantity : Q)
    : TradingBacktester.trade :=
  TradingBacktester.Trade (PyStr sym) 100 exit_price quantity 0 1
    ((exit_price - 100) * quantity) ((exit_price - 100) / 100 * 100) "manual".

Definition sample_ledger : TradingBacktester.t :=
  run [Call_add_trade (PyStr "A") 100 110 100 0 1 "manual";
       Call_add_trade (PyStr "B") 100 100 50 0 1 "manual";
       Call_add_trade (PyStr "C") 100 94.5 100 0 1 "manual"]
      fresh_ledger.

(** ** Notions of the specification *)

(** Capital accumulation: the current capital is the initial capital to
    which the profit and loss of each trade has been added in turn, in the
    order of the trades: [((initial + p1) + p2) + ...]. *)
Definition accumulated (self : TradingBacktester.t) : Prop :=
  self.(TradingBacktester.current_capital) =
  fold_left Qplus
    (map TradingBacktester.profit_loss self.(TradingBacktester.trades))
    self.(TradingBacktester.initial_capital).

(** The zeroed metrics the specification describes for an empty ledger. *)
Definition is_zero (m : gmap string metric) (key : string) : Prop :=
  exists q, m !! key = Some (Num q) /\ q == 0.

Definition zeroed_metrics (m : gmap string metric) : Prop :=
  is_zero m "total_trades" /\ is_zero m "win_rate" /\
  is_zero m "total_return" /\ is_zero m "max_drawdown" /\
  (m !! "profit_factor" = Some Inf \/ m !! "profit_factor" = None).

(** The drawdown scan in the words of the specification: the state is
    [(maxDrawdown, peak)], the scanned values are the [profitLoss] of the
    trades in insertion order. *)
Definition spec_drawdown_step (st : Q * Q) (profitLoss : Q) : Q * Q :=
  let currentValue := snd st + profitLoss in
  let peak := Qmax (snd st) currentValue in
  let drawdown := (peak - currentValue) / peak * 100 in
  (Qmax (fst st) drawdown, peak).

Definition spec_scan (initialCapital : Q) (profitLosses : list Q) : Q * Q :=
  fold_left spec_drawdown_step profitLosses (0, initialCapital).

Definition spec_max_drawdown (initialCapital : Q) (profitLosses : list Q) : Q :=
  fst (spec_scan initialCapital profitLosses).

(** The three policies in the words of the specification, over the grade,
    the holding return, the signals return and the trend of a snapshot. *)
Definition spec_policy (s : strategy) (grade holdingReturn signalsReturn trend : Q)
    : bool :=
  match s with
  | SignalReversal =>
      Qgeb grade 80 && Qltb holdingReturn 0.10 && Qgeb signalsReturn 1.00
  | LongTermHold =>
      Qgeb grade 88 && Qgeb holdingReturn 1.00 &&
      (Qltb signalsReturn (0.5 * holdingReturn) || Qltb signalsReturn 0)
  | TrendFollowing =>
      Qgeb grade 75 && Qeq_bool trend 1 &&
      Qgtb signalsReturn holdingReturn && Qgtb signalsReturn 0
  end.

(** The number held by a field of a snapshot, an absent field read as 0. *)
Definition field (token_data : gmap string pyval) (key : string) : Q :=
  match token_data !! key with
  | Some (PyNum q) => q
  | _ => 0
  end.

(** A snapshot: the scoring fields that are present hold numbers. *)
Definition numeric_fields : list string :=
  ["TM_TRADER_GRADE"; "HOLDING_RETURNS"; "TRADING_SIGNALS_RETURNS";
   "TOKEN_TREND"].

Definition snapshot (token_data : gmap string pyval) : Prop :=
  forall key v, key ∈ numeric_fields -> token_data !! key = Some v ->
                exists q, v = PyNum q.

(** The snapshot with every absent scoring field set to 0. *)
Definition with_defaults (token_data : gmap string pyval) : gmap string pyval :=
  foldr (fun key d => <[key := get token_data key (PyNum 0)]> d)
        token_data numeric_fields.

(** ** The ledger on binary64

    The methods of the ledger whose results depend on rounding, with the
    numbers of the program: the binary64 floats of the kernel.  The
    definitions are those of [TradingBacktester], operation for operation. *)

Module Binary64.

Definition truediv (a b : float) : res float :=
  if PrimFloat.eqb b 0 then Raise ZeroDivisionError else Ret (a / b)%float.

(** The builtin [max(a, b)]: [b] when [b > a], else [a]. *)
Definition py_max (a b : float) : float := if PrimFloat.ltb a b then b else a.

(** The builtin [sum] of a list of floats, from the start value 0. *)
Definition py_sum (l : list float) : float := fold_left PrimFloat.add l 0%float.

Record trade : Type := Trade {
  symbol : pyval;
  entry_price : float;
  exit_price : float;
  quantity : float;
  entry_date : Z;
  exit_date : Z;
  profit_loss : float;
  pnl_pct : float;
  strategy : string
}.

Record t : Type := Backtester {
  initial_capital : float;
  current_capital : float;
  positions : gmap string pyval;
  trades : list trade;
  portfolio_history : list pyval
}.

Definition set_trades (f : list trade -> list trade) (self : t) : t :=
  {| initial_capital := self.(initial_capital);
     current_capital := self.(current_capital);
     positions := self.(positions);
     trades := f self.(trades);
     portfolio_history := self.(portfolio_history) |}.

Definition set_current_capital (f : float -> float) (self : t) : t :=
  {| initial_capital := self.(initial_capital);
     current_capital := f self.(current_capital);
     positions := self.(positions);
     trades := self.(trades);
     portfolio_history := self.(portfolio_history) |}.

Definition __init__ (initial_capital : float) : res t :=
  Ret {| initial_capital := initial_capital;
         current_capital := initial_capital;
         positions := ∅;
         trades := [];
         portfolio_history := [] |}.

Definition add_trade (symbol : pyval) (entry_price exit_price quantity : float)
    (entry_date exit_date : Z) (strategy : string) : method t trade :=
  let profit_loss := ((exit_price - entry_price) * quantity)%float in
  pnl_pct <- lift (let? r := truediv (exit_price - entry_price)%float
                                     entry_price in
                   Ret (r * 100)%float);;
  let trade :=
    {| symbol := symbol;
       entry_price := entry_price;
       exit_price := exit_price;
       quantity := quantity;
       entry_date := entry_date;
       exit_date := exit_date;
       profit_loss := profit_loss;
       pnl_pct := pnl_pct;
       strategy := strategy |} in
  modify (set_trades (fun l => l ++ [trade]));;
  modify (set_current_capital (fun c => (c + profit_loss)%float));;
  mret trade.

(** The quantity that [simulate_trade] gives to [add_trade]. *)
Definition quantity_of (self : t) (position_size entry_price : float)
    : res float :=
  truediv (self.(current_capital) * position_size)%float entry_price.

(** The body of the drawdown loop of [calculate_metrics] and the value it
    leaves in [max_drawdown]. *)
Definition drawdown_body (st : float * float) (trade : trade)
    : res (float * float) :=
  let '(max_drawdown, peak) := st in
  let current_value := (peak + trade.(profit_loss))%float in
  let peak := py_max peak current_value in
  let? r := truediv (peak - current_value)%float peak in
  let drawdown := (r * 100)%float in
  Ret (py_max max_drawdown drawdown, peak).

Definition max_drawdown (self : t) : res float :=
  let? scan := for_each drawdown_body self.(trades)
                 (0%float, self.(initial_capital)) in
  Ret (fst scan).

(** A run of appends. *)
Record append : Type := Append {
  a_symbol : pyval;
  a_entry_price : float;
  a_exit_price : float;
  a_quantity : float;
  a_entry_date : Z;
  a_exit_date : Z;
  a_strategy : string
}.

Definition exec (a : append) (self : t) : t :=
  snd (add_trade a.(a_symbol) a.(a_entry_price) a.(a_exit_price)
         a.(a_quantity) a.(a_entry_date) a.(a_exit_date) a.(a_strategy)
         self).

Fixpoint states (l : list append) (self : t) : list t :=
  match l with
  | [] => []
  | a :: l' => exec a self :: states l' (exec a self)
  end.

(** Capital conservation as the specification states it, and capital
    accumulation, on binary64. *)
Definition conserved (self : t) : bool :=
  PrimFloat.eqb self.(current_capital)
    (self.(initial_capital) + py_sum (map profit_loss self.(trades)))%float.

Definition accumulated (self : t) : Prop :=
  self.(current_capital) =
  fold_left PrimFloat.add (map profit_loss self.(trades))
    self.(initial_capital).

(** The ledger [TradingBacktester(initial_capital=10000)]. *)
Definition fresh_ledger : t :=
  {| initial_capital := 10000;
     current_capital := 10000;
     positions := ∅;
     trades := [];
     portfolio_history := [] |}.

(** The two trades that the reversal and the trend-following strategies
    make on CRV, bought at 100 and sold at 785.34, from a ledger of 10000:
    the quantities are those of their [simulate_trade]. *)
Definition two_trades : t :=
  match quantity_of fresh_ledger 0.05 100 with
  | Raise _ => fresh_ledger
  | Ret q1 =>
      let self1 :=
        snd (add_trade (PyStr "CRV") 100 785.34 q1 0 0
               "TM Signal-Driven Reversal" fresh_ledger) in
      match quantity_of self1 0.08 100 with
      | Raise _ => self1
      | Ret q2 =>
          snd (add_trade (PyStr "CRV") 100 785.34 q2 0 0
                 "TM Trend-Aligned Signal Following" self1)
      end
  end.

(** A trade that loses 5e-13, appended to a ledger of 10000. *)
Definition tiny_loss : t :=
  snd (add_trade (PyStr "A") 1 0.5 1e-12 0 0 "manual" fresh_ledger).

End Binary64.

(** ** The driver [run_backtest_simulation]

    The driver indexes dictionaries with [d[key]], which raises [KeyError]
    on a missing key, and lets the exceptions of the calls it makes go
    through.  The lines it prints are not modelled, only the lookups they
    perform.  The successive readings of [datetime.now()] during a run are
    [clock 0], [clock 1], ...; the driver has no parameter and always runs
    its own table [token_data]. *)
Inductive error : Type :=
  | KeyError (key : string)
  | Error (e : exn).

Inductive outcome (A : Type) : Type :=
  | Done (a : A)
  | Failed (err : error).
Arguments Done {A} a.
Arguments Failed {A} err.

Definition outcome_bind {A B} (o : outcome A) (k : A -> outcome B) : outcome B :=
  match o with
  | Done a => k a
  | Failed err => Failed err
  end.

Notation "'let!' x ':=' o 'in' k" := (outcome_bind o (fun x => k))
  (at level 10, x name, o at level 100, k at level 200) : py_scope.

(** [d[key]]. *)
Definition getitem {V} (d : gmap string V) (key : string) : outcome V :=
  match d !! key with
  | Some v => Done v
  | None => Failed (KeyError key)
  end.

(** [base_price * (1 + v)]. *)
Definition exit_price_of (base_price : Q) (v : pyval) : outcome Q :=
  match v with
  | PyNum q => Done (base_price * (1 + q))
  | PyStr _ | PyNone => Failed (Error TypeError)
  end.

(** The rows of the table of the driver. *)
Definition token_data : list (gmap string pyval) :=
  [ token "REQ" 88.21 3.7339 (-0.8131) 1;
    token "CRV" 85 (-0.9423) 6.8534 1;
    token "GURU" 81.27 1.4655 2.8072 1;
    token "ISLAND" 73.72 (-0.8191) (-0.0489) 1;
    token "SUAI" 72.41 1.9017 0.1487 1 ].

(** An entry of [results]: the label, the symbol and the [pnl_pct]. *)
Definition result : Type := string * pyval * Q.

(** The local variables of the driver that the loop changes, and the number
    of clock readings made so far. *)
Record locals : Type := Locals {
  backtester : TradingBacktester.t;
  results : list result;
  clock_reads : nat
}.

(** One of the three blocks of the loop body:
    [if strategy.evaluate_entry(token): trade = strategy.simulate_trade(...);
     if trade: results.append((label, token['TOKEN_SYMBOL'], trade['pnl_pct']))]. *)
Definition test_strategy (clock : nat -> Z) (label : string) (s : strategy)
    (token : gmap string pyval) (entry_price exit_price : Q) (st : locals)
    : outcome locals :=
  match evaluate_entry s token with
  | Raise e => Failed (Error e)
  | Ret false => Done st
  | Ret true =>
      match simulate_trade s token entry_price exit_price None
              (clock st.(clock_reads)) (clock (S st.(clock_reads)))
              st.(backtester) with
      | (Raise e, _) => Failed (Error e)
      | (Ret None, self) => Done (Locals self st.(results) st.(clock_reads))
      | (Ret (Some trade), self) =>
          let! sym := getitem token "TOKEN_SYMBOL" in
          Done (Locals self
                  (st.(results)
                   ++ [(label, sym, trade.(TradingBacktester.pnl_pct))])
                  (S (S st.(clock_reads))))
      end
  end.

(** The body of the loop over the tokens. *)
Definition simulation_body (clock : nat -> Z) (st : locals)
    (token : gmap string pyval) : outcome locals :=
  let base_price := 100 in
  let! h := getitem token "HOLDING_RETURNS" in
  let! holding_exit_price := exit_price_of base_price h in
  let! s := getitem token "TRADING_SIGNALS_RETURNS" in
  let! signals_exit_price := exit_price_of base_price s in
  let! st := test_strategy clock "Strategy 1" SignalReversal token
               base_price signals_exit_price st in
  let! st := test_strategy clock "Strategy 2" LongTermHold token
               base_price holding_exit_price st in
  test_strategy clock "Strategy 3" TrendFollowing token
    base_price signals_exit_price st.

(** [for token in token_data: ...]. *)
Fixpoint simulation_loop (clock : nat -> Z)
    (tokens : list (gmap string pyval)) (st : locals) : outcome locals :=
  match tokens with
  | [] => Done st
  | token :: tokens' =>
      let! st' := simulation_body clock st token in
      simulation_loop clock tokens' st'
  end.

(** The driver: the loop over its table from a ledger of 10000, the metrics,
    and the lookups of the report; it returns the ledger and the metrics. *)
Definition run_backtest_simulation (clock : nat -> Z)
    : outcome (TradingBacktester.t * gmap string metric) :=
  match TradingBacktester.__init__ 10000 with
  | Raise e => Failed (Error e)
  | Ret self =>
      let! st := simulation_loop clock token_data (Locals self [] 0) in
      match TradingBacktester.calculate_metrics st.(backtester) with
      | (Raise e, _) => Failed (Error e)
      | (Ret metrics, self') =>
          let! _ := getitem metrics "final_capital" in
          let! _ := getitem metrics "total_return" in
          let! _ := getitem metrics "win_rate" in
          let! _ := getitem metrics "total_trades" in
          Done (self', metrics)
      end
  end.

(** ** Auxiliary notions *)

(** The attribute [name] and the holding period of a strategy. *)
Definition strategy_name (s : strategy) : string :=
  match s with
  | SignalReversal => SignalReversalStrategy.name
  | LongTermHold => LongTermHoldStrategy.name
  | TrendFollowing => TrendFollowingStrategy.name
  end.

Definition holding_days (s : strategy) : Z :=
  match s with
  | SignalReversal => 30
  | LongTermHold => 180
  | TrendFollowing => 14
  end.

(** The keys of the dictionary of metrics. *)
Definition metrics_keys : gset string :=
  {[ "total_trades" ]} ∪ ({[ "winning_trades" ]} ∪ ({[ "losing_trades" ]} ∪
  ({[ "win_rate" ]} ∪ ({[ "total_return" ]} ∪ ({[ "avg_win" ]} ∪
  ({[ "avg_loss" ]} ∪ ({[ "profit_factor" ]} ∪ ({[ "max_drawdown" ]} ∪
  ({[ "final_capital" ]} ∪ ∅))))))))).

(** The winning and the losing trades of a ledger. *)
Definition winners (self : TradingBacktester.t) : list TradingBacktester.trade :=
  List.filter TradingBacktester.is_win self.(TradingBacktester.trades).

Definition losers (self : TradingBacktester.t) : list TradingBacktester.trade :=
  List.filter TradingBacktester.is_loss self.(TradingBacktester.trades).

(** A ledger of 10000 with two losing trades of 1000 each. *)
Definition losing_ledger : TradingBacktester.t :=
  run [Call_add_trade (PyStr "A") 100 90 100 0 1 "manual";
       Call_add_trade (PyStr "B") 100 90 100 1 2 "manual"]
      fresh_ledger.

(** A trade and a ledger with the dates of the trades erased. *)
Definition undate_trade (trade : TradingBacktester.trade)
    : TradingBacktester.trade :=
  {| TradingBacktester.symbol := trade.(TradingBacktester.symbol);
     TradingBacktester.entry_price := trade.(TradingBacktester.entry_price);
     TradingBacktester.exit_price := trade.(TradingBacktester.exit_price);
     TradingBacktester.quantity := trade.(TradingBacktester.quantity);
     TradingBacktester.entry_date := 0;
     TradingBacktester.exit_date := 0;
     TradingBacktester.profit_loss := trade.(TradingBacktester.profit_loss);
     TradingBacktester.pnl_pct := trade.(TradingBacktester.pnl_pct);
     TradingBacktester.strategy := trade.(TradingBacktester.strategy) |}.

Definition undate_ledger (self : TradingBacktester.t) : TradingBacktester.t :=
  TradingBacktester.set_trades (map undate_trade) self.

Definition undate_locals (st : locals) : locals :=
  Locals (undate_ledger st.(backtester)) st.(results) st.(clock_reads).

Definition outcome_map {A B} (f : A -> B) (o : outcome A) : outcome B :=
  match o with
  | Done a => Done (f a)
  | Failed err => Failed err
  end.

(** What two runs of the driver have in common when they differ at most by
    the dates of the trades. *)
Definition undate_run (o : outcome (TradingBacktester.t * gmap string metric))
    : outcome (TradingBacktester.t * gmap string metric) :=
  outcome_map (fun r => (undate_ledger (fst r), snd r)) o.

(** * Properties *)

(** ** Comparisons and division *)

Lemma Qgtb_true (a b : Q) : Qgtb a b = true <-> b < a.
Proof.
  unfold Qgtb. rewrite negb_true_iff, <- not_true_iff_false, Qle_bool_iff.
  split; [apply Qnot_le_lt | apply Qlt_not_le].
Qed.

Lemma Qgtb_false (a b : Q) : Qgtb a b = false <-> a <= b.
Proof. unfold Qgtb. rewrite negb_false_iff. apply Qle_bool_iff. Qed.

Lemma Qltb_true (a b : Q) : Qltb a b = true <-> a < b.
Proof. apply (Qgtb_true b a). Qed.

Lemma Qltb_false (a b : Q) : Qltb a b = false <-> b <= a.
Proof. apply (Qgtb_false b a). Qed.

Lemma Qgeb_true (a b : Q) : Qgeb a b = true <-> b <= a.
Proof. apply Qle_bool_iff. Qed.

Lemma truediv_nonzero (a b : Q) : ~ b == 0 -> truediv a b = Ret (a / b).
Proof.
  intros Hb. unfold truediv.
  destruct (Qeq_bool b 0) eqn:E; [|reflexivity].
  apply Qeq_bool_eq in E. contradiction.
Qed.

Lemma truediv_zero (a b : Q) : b == 0 -> truediv a b = Raise ZeroDivisionError.
Proof. intros Hb. unfold truediv. now rewrite (Qeq_eq_bool _ _ Hb). Qed.

(** ** The ledger's methods *)

Section Ledger.
Import TradingBacktester.

(** What [add_trade] returns and leaves when the entry price is not zero. *)
Lemma add_trade_returns sym en ex qty d1 d2 strat (self : t) :
  ~ en == 0 ->
  let trade := Trade sym en ex qty d1 d2 ((ex - en) * qty)
                     ((ex - en) / en * 100) strat in
  add_trade sym en ex qty d1 d2 strat self =
  (Ret trade,
   Backtester self.(initial_capital)
              (self.(current_capital) + trade.(profit_loss))
              self.(positions)
              (self.(trades) ++ [trade])
              self.(portfolio_history)).
Proof.
  intros Hen. unfold add_trade, mbind, lift, modify, mret. simpl.
  rewrite (truediv_nonzero _ _ Hen). reflexivity.
Qed.

(** With a zero entry price the percentage cannot be computed and the
    exception leaves the ledger as it was. *)
Lemma add_trade_raises sym en ex qty d1 d2 strat (self : t) :
  en == 0 ->
  add_trade sym en ex qty d1 d2 strat self = (Raise ZeroDivisionError, self).
Proof.
  intros Hen. unfold add_trade, mbind, lift. simpl.
  now rewrite (truediv_zero _ _ Hen).
Qed.

Lemma add_trade_cases sym en ex qty d1 d2 strat (self : t) :
  add_trade sym en ex qty d1 d2 strat self = (Raise ZeroDivisionError, self) \/
  exists trade,
    add_trade sym en ex qty d1 d2 strat self =
    (Ret trade,
     Backtester self.(initial_capital)
                (self.(current_capital) + trade.(profit_loss))
                self.(positions)
                (self.(trades) ++ [trade])
                self.(portfolio_history)).
Proof.
  destruct (Qeq_dec en 0) as [Hen|Hen].
  - left. now apply add_trade_raises.
  - right. eexists. now apply add_trade_returns.
Qed.

(** [calculate_metrics] only reads [self]. *)
Lemma calculate_metrics_state (self : t) :
  snd (calculate_metrics self) = self.
Proof.
  unfold calculate_metrics, mbind, read, lift, mret. simpl.
  destruct (trades self) as [|t0 l]; [reflexivity|].
  repeat match goal with
         | |- context [match ?r with Ret _ => _ | Raise _ => _ end] =>
             destruct r; simpl; try reflexivity
         end.
Qed.

Lemma accumulated_add_trade sym en ex qty d1 d2 strat (self : t) :
  accumulated self ->
  accumulated (snd (add_trade sym en ex qty d1 d2 strat self)).
Proof.
  intros Hc.
  destruct (add_trade_cases sym en ex qty d1 d2 strat self) as [E|[tr E]];
    rewrite E; simpl; [exact Hc|].
  unfold accumulated in *. simpl.
  rewrite map_app, fold_left_app, <- Hc. reflexivity.
Qed.

End Ledger.

(** ** The strategies' [simulate_trade] *)

Section Simulate.
Import TradingBacktester.

Ltac unfold_simulate :=
  unfold simulate_trade, evaluate_entry,
    SignalReversalStrategy.simulate_trade,
    LongTermHoldStrategy.simulate_trade,
    TrendFollowingStrategy.simulate_trade, mbind, lift, read, mret in *.

Lemma simulate_trade_rejected s td en ex ps now1 now2 (self : t) :
  evaluate_entry s td = Ret false ->
  simulate_trade s td en ex ps now1 now2 self = (Ret None, self).
Proof. intros H. destruct s; unfold_simulate; now rewrite H. Qed.

Lemma simulate_trade_raised s td en ex ps now1 now2 (self : t) e :
  evaluate_entry s td = Raise e ->
  simulate_trade s td en ex ps now1 now2 self = (Raise e, self).
Proof. intros H. destruct s; unfold_simulate; now rewrite H. Qed.

Lemma simulate_trade_zero_price s td en ex ps now1 now2 (self : t) :
  evaluate_entry s td = Ret true -> en == 0 ->
  simulate_trade s td en ex ps now1 now2 self = (Raise ZeroDivisionError, self).
Proof.
  intros H Hen. destruct s; unfold_simulate; rewrite H;
    now rewrite (truediv_zero _ _ Hen).
Qed.

Lemma simulate_trade_accepted s td en ex ps now1 now2 (self : t) :
  evaluate_entry s td = Ret true -> ~ en == 0 ->
  exists trade,
    simulate_trade s td en ex ps now1 now2 self =
    (Ret (Some trade),
     Backtester self.(initial_capital)
                (self.(current_capital) + trade.(profit_loss))
                self.(positions)
                (self.(trades) ++ [trade])
                self.(portfolio_history)) /\
    trade.(quantity) =
      self.(current_capital) * default (position_size_default s) ps / en /\
    trade.(entry_price) = en /\ trade.(exit_price) = ex /\
    trade.(profit_loss) = (ex - en) * trade.(quantity).
Proof.
  intros H Hen.
  destruct s; unfold_simulate; rewrite H;
    rewrite (truediv_nonzero _ _ Hen);
    rewrite (add_trade_returns _ _ _ _ _ _ _ _ Hen);
    eexists; repeat split.
Qed.

Lemma accumulated_simulate_trade s td en ex ps now1 now2 (self : t) :
  accumulated self ->
  accumulated (snd (simulate_trade s td en ex ps now1 now2 self)).
Proof.
  intros Hc.
  destruct (evaluate_entry s td) as [[|]|e] eqn:E.
  - destruct (Qeq_dec en 0) as [Hen|Hen].
    + now rewrite (simulate_trade_zero_price _ _ _ _ _ _ _ _ E Hen).
    + destruct (simulate_trade_accepted s td en ex ps now1 now2 self E Hen)
        as (tr & -> & _).
      unfold accumulated in *. simpl.
      rewrite map_app, fold_left_app, <- Hc. reflexivity.
  - now rewrite (simulate_trade_rejected _ _ _ _ _ _ _ _ E).
  - now rewrite (simulate_trade_raised _ _ _ _ _ _ _ _ _ E).
Qed.

End Simulate.

Lemma accumulated_exec (c : call) (self : TradingBacktester.t) :
  accumulated self -> accumulated (exec c self).
Proof.
  intros Hc. destruct c; simpl.
  - now apply accumulated_add_trade.
  - now apply accumulated_simulate_trade.
  - now rewrite calculate_metrics_state.
Qed.

Lemma accumulated_states (cs : list call) (self : TradingBacktester.t) :
  accumulated self -> Forall accumulated (states cs self).
Proof.
  revert self. induction cs as [|c cs IH]; intros self Hc; simpl.
  - constructor.
  - constructor; [|apply IH]; now apply accumulated_exec.
Qed.

(** The same on binary64, for runs of appends. *)
Lemma accumulated_states_binary64 (l : list Binary64.append)
    (self : Binary64.t) :
  Binary64.accumulated self ->
  Forall Binary64.accumulated (Binary64.states l self).
Proof.
  revert self. induction l as [|a l IH]; intros self Hc; simpl.
  - constructor.
  - assert (Ha : Binary64.accumulated (Binary64.exec a self)).
    { unfold Binary64.exec, Binary64.add_trade, mbind, lift, modify, mret.
      simpl. destruct (Binary64.truediv _ _); simpl; [|exact Hc].
      unfold Binary64.accumulated in *. simpl.
      rewrite map_app, fold_left_app, <- Hc. reflexivity. }
    constructor; [exact Ha | now apply IH].
Qed.

(** ** Empty ledger *)

(** C1, as stated, fails: on the ledger [TradingBacktester(10000)], which has
    no trade, [calculate_metrics] returns the empty dictionary, which holds
    no [total_trades], [win_rate], [total_return] or [max_drawdown] at all. *)
Lemma C1_counterexample :
  fst (TradingBacktester.calculate_metrics fresh_ledger) = Ret ∅ /\
  ~ (exists m, fst (TradingBacktester.calculate_metrics fresh_ledger) = Ret m /\
               zeroed_metrics m).
Proof.
  split; [reflexivity|].
  intros (m & Hm & (q & Hq & _) & _).
  cbn in Hm. injection Hm as <-.
  rewrite lookup_empty in Hq. discriminate.
Qed.

(** C1, amended: computing metrics on a ledger with zero trades returns the
    empty dictionary, with no field at all, and leaves the ledger as it
    is. *)
Theorem C1_empty_ledger_metrics (self : TradingBacktester.t) :
  self.(TradingBacktester.trades) = [] ->
  TradingBacktester.calculate_metrics self = (Ret ∅, self) /\
  forall key, (∅ : gmap string metric) !! key = None.
Proof.
  intros H. split; [|intros key; apply lookup_empty].
  unfold TradingBacktester.calculate_metrics, mbind, read, mret. simpl.
  now rewrite H.
Qed.

Lemma C1_empty_ledger_metrics_witness :
  TradingBacktester.calculate_metrics fresh_ledger = (Ret ∅, fresh_ledger) /\
  forall key, (∅ : gmap string metric) !! key = None.
Proof. apply (C1_empty_ledger_metrics fresh_ledger). reflexivity. Defined.

(** ** Construction *)

(** C2, as stated, fails: constructing a ledger with the initial capital
    -5000 does not raise; it returns a ledger whose capital is -5000. *)
Lemma C2_counterexample :
  -5000 <= 0 /\
  ~ (exists e, TradingBacktester.__init__ (-5000) = Raise e) /\
  exists self, TradingBacktester.__init__ (-5000) = Ret self /\
               self.(TradingBacktester.current_capital) = -5000.
Proof.
  split; [discriminate|]. split.
  - intros [e He]. discriminate He.
  - eexists. split; reflexivity.
Qed.

(** C2, amended: constructing a ledger succeeds for every initial capital,
    positive or not, with the current capital equal to the initial capital
    and an empty trade sequence. *)
Theorem C2_construction (c : Q) :
  exists self,
    TradingBacktester.__init__ c = Ret self /\
    self.(TradingBacktester.initial_capital) = c /\
    self.(TradingBacktester.current_capital) = c /\
    self.(TradingBacktester.trades) = [] /\
    self.(TradingBacktester.positions) = ∅ /\
    self.(TradingBacktester.portfolio_history) = [].
Proof. eexists. repeat split. Qed.

(** ** Capital conservation *)

(** C3, as stated, fails on the numbers of the program.  From a ledger of
    10000 the reversal and then the trend-following strategy trade CRV,
    bought at 100 and sold at 785.34, with the quantities of their
    [simulate_trade].  After the second append the current capital is
    20788.183662400003, and the initial capital plus the sum of the profit
    and loss of the two trades is 20788.183662399999. *)
Lemma C3_counterexample :
  length Binary64.two_trades.(Binary64.trades) = 2%nat /\
  Binary64.two_trades.(Binary64.current_capital) = 20788.183662400003%float /\
  (Binary64.two_trades.(Binary64.initial_capital)
   + Binary64.py_sum (map Binary64.profit_loss
                        Binary64.two_trades.(Binary64.trades)))%float
  = 20788.183662399999%float /\
  Binary64.conserved Binary64.two_trades = false.
Proof. repeat split; vm_compute; reflexivity. Qed.

(** C3, amended: on a ledger constructed with any initial capital, at
    construction and after every call of any sequence of calls (appends
    through [add_trade] or through a strategy's [simulate_trade], metric
    computations), the current capital is the initial capital to which the
    profit and loss of the trades appended so far has been added one after
    the other, in their order: [((initial + p1) + p2) + ... + pn].  Each
    append with a non-zero entry price adds one trade, whose profit and loss
    is [(exit_price - entry_price) * quantity], and adds that amount to the
    current capital.  The same accumulation holds of the appends computed
    on binary64. *)
Theorem C3_capital_accumulation (c : Q) (self : TradingBacktester.t)
    (cs : list call) :
  TradingBacktester.__init__ c = Ret self ->
  accumulated self /\ Forall accumulated (states cs self) /\
  (forall self0 sym en ex qty d1 d2 strat,
     ~ en == 0 ->
     exists trade,
       TradingBacktester.add_trade sym en ex qty d1 d2 strat self0 =
       (Ret trade,
        TradingBacktester.Backtester
          self0.(TradingBacktester.initial_capital)
          (self0.(TradingBacktester.current_capital)
           + trade.(TradingBacktester.profit_loss))
          self0.(TradingBacktester.positions)
          (self0.(TradingBacktester.trades) ++ [trade])
          self0.(TradingBacktester.portfolio_history)) /\
       trade.(TradingBacktester.profit_loss) = (ex - en) * qty) /\
  (forall (c64 : float) (self64 : Binary64.t) (l : list Binary64.append),
     Binary64.__init__ c64 = Ret self64 ->
     Binary64.accumulated self64 /\
     Forall Binary64.accumulated (Binary64.states l self64)).
Proof.
  intros H. injection H as <-.
  assert (Hc : accumulated (TradingBacktester.Backtester c c ∅ [] []))
    by reflexivity.
  split; [exact Hc|]. split; [now apply accumulated_states|]. split.
  - intros self0 sym en ex qty d1 d2 strat Hen.
    eexists. split; [now apply add_trade_returns | reflexivity].
  - intros c64 self64 l [= <-].
    assert (Hc64 : Binary64.accumulated (Binary64.Backtester c64 c64 ∅ [] []))
      by reflexivity.
    split; [exact Hc64 | now apply accumulated_states_binary64].
Qed.

Lemma C3_capital_accumulation_witness :
  accumulated fresh_ledger /\
  Forall accumulated
    (states [Call_simulate_trade SignalReversal CRV 100 785.34 None 0 1;
             Call_add_trade (PyStr "X") 10 8 3 0 1 "manual";
             Call_calculate_metrics;
             Call_simulate_trade TrendFollowing CRV 100 785.34 None 2 3]
            fresh_ledger).
Proof.
  destruct (C3_capital_accumulation 10000 fresh_ledger
              [Call_simulate_trade SignalReversal CRV 100 785.34 None 0 1;
               Call_add_trade (PyStr "X") 10 8 3 0 1 "manual";
               Call_calculate_metrics;
               Call_simulate_trade TrendFollowing CRV 100 785.34 None 2 3])
    as (H0 & Hs & _); [reflexivity|].
  split; assumption.
Defined.

(** ** Position sizing *)

(** C4: when a strategy simulates a trade on an accepted snapshot the
    quantity is the ledger's current capital at the call, times the sizing
    fraction, over the entry price.  For two accepted trades in sequence the
    second quantity is computed from the capital left by the first, which
    is the capital before it plus its profit and loss. *)
Theorem C4_sizing_uses_live_capital
    (s1 s2 : strategy) (td1 td2 : gmap string pyval)
    (en1 ex1 en2 ex2 : Q) (ps1 ps2 : option Q) (now1 now2 now3 now4 : Z)
    (self : TradingBacktester.t) :
  evaluate_entry s1 td1 = Ret true -> evaluate_entry s2 td2 = Ret true ->
  ~ en1 == 0 -> ~ en2 == 0 ->
  let f1 := default (position_size_default s1) ps1 in
  let f2 := default (position_size_default s2) ps2 in
  exists trade1 self1 trade2 self2,
    simulate_trade s1 td1 en1 ex1 ps1 now1 now2 self
    = (Ret (Some trade1), self1) /\
    simulate_trade s2 td2 en2 ex2 ps2 now3 now4 self1
    = (Ret (Some trade2), self2) /\
    trade1.(TradingBacktester.quantity) =
      self.(TradingBacktester.current_capital) * f1 / en1 /\
    self1.(TradingBacktester.current_capital) =
      self.(TradingBacktester.current_capital)
      + trade1.(TradingBacktester.profit_loss) /\
    trade2.(TradingBacktester.quantity) =
      (self.(TradingBacktester.current_capital)
       + trade1.(TradingBacktester.profit_loss)) * f2 / en2.
Proof.
  intros H1 H2 Hen1 Hen2 f1 f2.
  destruct (simulate_trade_accepted s1 td1 en1 ex1 ps1 now1 now2 self H1 Hen1)
    as (trade1 & E1 & Hq1 & _).
  set (self1 := TradingBacktester.Backtester _ _ _ _ _) in E1.
  destruct (simulate_trade_accepted s2 td2 en2 ex2 ps2 now3 now4 self1 H2 Hen2)
    as (trade2 & E2 & Hq2 & _).
  exists trade1, self1, trade2. eexists.
  split; [exact E1|]. split; [exact E2|].
  split; [exact Hq1|]. split; [reflexivity | exact Hq2].
Qed.

Lemma C4_sizing_uses_live_capital_witness :
  exists trade1 self1 trade2 self2,
    simulate_trade SignalReversal CRV 100 785.34 None 0 1 fresh_ledger =
      (Ret (Some trade1), self1) /\
    simulate_trade TrendFollowing CRV 100 785.34 None 2 3 self1 =
      (Ret (Some trade2), self2) /\
    trade1.(TradingBacktester.quantity) = 10000 * 0.05 / 100 /\
    trade2.(TradingBacktester.quantity) =
      (10000 + trade1.(TradingBacktester.profit_loss)) * 0.08 / 100 /\
    ~ trade2.(TradingBacktester.quantity) == 10000 * 0.08 / 100.
Proof.
  destruct (C4_sizing_uses_live_capital SignalReversal TrendFollowing CRV CRV
              100 785.34 100 785.34 None None 0 1 2 3 fresh_ledger)
    as (t1 & s1 & t2 & s2 & E1 & E2 & Q1 & _ & Q2);
    [reflexivity | reflexivity | discriminate | discriminate |].
  exists t1, s1, t2, s2. repeat split; try assumption.
  rewrite Q2. vm_compute in E1. injection E1 as <- _. discriminate.
Defined.

(** ** Rejection *)

(** C9: for a snapshot that a strategy's predicate rejects, that strategy's
    [simulate_trade] returns [None] and leaves the whole ledger as it was:
    no trade is appended and the capital is not modified. *)
Theorem C9_rejection_is_atomic (s : strategy) (token_data : gmap string pyval)
    (entry_price exit_price : Q) (position_size : option Q) (now1 now2 : Z)
    (self : TradingBacktester.t) :
  evaluate_entry s token_data = Ret false ->
  simulate_trade s token_data entry_price exit_price position_size now1 now2
    self =
  (Ret None, self).
Proof. apply simulate_trade_rejected. Qed.

Lemma C9_rejection_is_atomic_witness :
  simulate_trade SignalReversal REQ 100 473.39 None 0 1 fresh_ledger =
  (Ret None, fresh_ledger).
Proof. apply (C9_rejection_is_atomic SignalReversal REQ). reflexivity. Defined.

(** ** Frame *)

(** C10: an append through [add_trade] succeeds when the entry price is not
    zero; it then changes the current capital by the profit and loss of the
    new trade, extends the trade sequence by exactly that trade, and leaves
    the initial capital, the earlier trades and the other attributes as they
    were (with a zero entry price it raises and changes nothing).  Computing
    metrics leaves the ledger as it was, so computing them again gives the
    same result. *)
Theorem C10_frame (self : TradingBacktester.t) :
  (forall sym en ex qty d1 d2 strat,
     (~ en == 0 ->
      exists trade,
        TradingBacktester.add_trade sym en ex qty d1 d2 strat self =
        (Ret trade,
         TradingBacktester.Backtester
           self.(TradingBacktester.initial_capital)
           (self.(TradingBacktester.current_capital)
            + trade.(TradingBacktester.profit_loss))
           self.(TradingBacktester.positions)
           (self.(TradingBacktester.trades) ++ [trade])
           self.(TradingBacktester.portfolio_history))) /\
     (en == 0 ->
      TradingBacktester.add_trade sym en ex qty d1 d2 strat self =
      (Raise ZeroDivisionError, self))) /\
  (forall r self',
     TradingBacktester.calculate_metrics self = (r, self') ->
     self' = self /\ TradingBacktester.calculate_metrics self' = (r, self')).
Proof.
  split.
  - intros sym en ex qty d1 d2 strat. split; intros Hen.
    + eexists. now apply add_trade_returns.
    + now apply add_trade_raises.
  - intros r self' E.
    pose proof (calculate_metrics_state self) as Hs.
    rewrite E in Hs. simpl in Hs. subst self'. now split.
Qed.

Lemma C10_frame_witness :
  exists trade,
    TradingBacktester.add_trade (PyStr "X") 10 8 3 0 1 "manual" fresh_ledger =
    (Ret trade,
     TradingBacktester.Backtester 10000
       (10000 + trade.(TradingBacktester.profit_loss)) ∅ [trade] []).
Proof.
  apply (proj1 (proj1 (C10_frame fresh_ledger) (PyStr "X") 10 8 3 0%Z 1%Z
                  "manual"%string)).
  discriminate.
Defined.

(** ** The predicates *)

(** A field that is present but holds no number makes a predicate raise:
    the hypothesis [snapshot] below is needed. *)
Example evaluate_entry_ill_typed :
  evaluate_entry SignalReversal (<["TM_TRADER_GRADE" := PyNone]> ∅)
  = Raise TypeError /\
  evaluate_entry TrendFollowing (<["TM_TRADER_GRADE" := PyStr "A"]> ∅)
  = Raise TypeError.
Proof. split; reflexivity. Qed.

Lemma andb3_true (a b c : bool) : a && b && c = true <-> a = true /\ b = true /\ c = true.
Proof. destruct a, b, c; simpl; intuition discriminate. Qed.

(** C6: on a snapshot whose grade, holding return and signals return are
    the numbers [g], [h] and [s] (a field that is absent counting as 0), the
    reversal policy returns true exactly when [g >= 80], [h < 0.10] and
    [s >= 1.00]; it rejects the snapshot with grade 88.21, holding return
    3.7339 and signals return -0.8131 and accepts the one with grade 85,
    holding return -0.9423 and signals return 6.8534. *)
Theorem C6_reversal_policy (token_data : gmap string pyval) (g h s : Q) :
  get token_data "TM_TRADER_GRADE" (PyNum 0) = PyNum g ->
  get token_data "HOLDING_RETURNS" (PyNum 0) = PyNum h ->
  get token_data "TRADING_SIGNALS_RETURNS" (PyNum 0) = PyNum s ->
  (exists b, SignalReversalStrategy.evaluate_entry token_data = Ret b) /\
  (SignalReversalStrategy.evaluate_entry token_data = Ret true <->
   80 <= g /\ h < 0.10 /\ 1.00 <= s) /\
  SignalReversalStrategy.evaluate_entry scenario_reversal_reject = Ret false /\
  SignalReversalStrategy.evaluate_entry scenario_reversal_accept = Ret true.
Proof.
  intros Hg Hh Hs.
  assert (E : SignalReversalStrategy.evaluate_entry token_data =
              Ret (Qgeb g 80 && Qltb h 0.10 && Qgeb s 1.00)).
  { unfold SignalReversalStrategy.evaluate_entry. rewrite Hg, Hh, Hs.
    unfold py_and, py_ge, py_lt. simpl.
    destruct (Qgeb g 80), (Qltb h 0.10); reflexivity. }
  split; [eexists; exact E|]. split; [|split; reflexivity].
  rewrite E. rewrite <- Qgeb_true, <- Qltb_true, <- (Qgeb_true s).
  rewrite <- andb3_true. split; [now intros [= ->] | now intros ->].
Qed.

Lemma C6_reversal_policy_witness :
  SignalReversalStrategy.evaluate_entry CRV = Ret true <->
  80 <= 85 /\ -0.9423 < 0.10 /\ 1.00 <= 6.8534.
Proof.
  apply (C6_reversal_policy CRV 85 (-0.9423) 6.8534); reflexivity.
Defined.

Lemma get_field (token_data : gmap string pyval) (key : string) :
  snapshot token_data -> key ∈ numeric_fields ->
  get token_data key (PyNum 0) = PyNum (field token_data key).
Proof.
  intros Hsnap Hkey. unfold get, field.
  destruct (token_data !! key) as [v|] eqn:E; [|reflexivity].
  destruct (Hsnap key v Hkey E) as [q ->]. reflexivity.
Qed.

Lemma evaluate_entry_policy (s : strategy) (token_data : gmap string pyval) :
  snapshot token_data ->
  evaluate_entry s token_data =
  Ret (spec_policy s (field token_data "TM_TRADER_GRADE")
                     (field token_data "HOLDING_RETURNS")
                     (field token_data "TRADING_SIGNALS_RETURNS")
                     (field token_data "TOKEN_TREND")).
Proof.
  intros Hsnap.
  assert (Hg := get_field token_data "TM_TRADER_GRADE" Hsnap).
  assert (Hh := get_field token_data "HOLDING_RETURNS" Hsnap).
  assert (Hs := get_field token_data "TRADING_SIGNALS_RETURNS" Hsnap).
  assert (Ht := get_field token_data "TOKEN_TREND" Hsnap).
  unfold numeric_fields in *.
  destruct s; unfold evaluate_entry, spec_policy,
    SignalReversalStrategy.evaluate_entry, LongTermHoldStrategy.evaluate_entry,
    TrendFollowingStrategy.evaluate_entry;
    rewrite ?Hg, ?Hh, ?Hs, ?Ht by set_solver;
    unfold py_and, py_or, py_ge, py_lt, py_gt, py_eq, py_mul; simpl;
    repeat match goal with
           | |- context [if ?b then _ else _] => destruct b; simpl
           end; reflexivity.
Qed.

Lemma field_with_defaults (token_data : gmap string pyval) (key : string) :
  field (with_defaults token_data) key = field token_data key.
Proof.
  unfold field, with_defaults, numeric_fields, get. simpl.
  repeat (rewrite lookup_insert; case_decide;
          [subst key; destruct (token_data !! _) as [[]|]; reflexivity|]).
  reflexivity.
Qed.

Lemma snapshot_with_defaults (token_data : gmap string pyval) :
  snapshot token_data -> snapshot (with_defaults token_data).
Proof.
  intros Hsnap key v Hkey. unfold with_defaults, numeric_fields. simpl.
  repeat (rewrite lookup_insert; case_decide;
          [subst key; intros [= <-];
           rewrite get_field by (assumption || set_solver); eauto|]).
  now apply Hsnap.
Qed.

(** C8: on every snapshot (a dictionary in which the scoring fields that are
    present hold numbers, and from which any of them may be missing) each of
    the three predicates returns a boolean and does not raise; the boolean
    is the one its policy gives on the values of the fields with an absent
    field read as 0, the same as on the snapshot in which the absent fields
    have been set to 0. *)
Theorem C8_evaluate_total (s : strategy) (token_data : gmap string pyval) :
  snapshot token_data ->
  (exists b : bool, evaluate_entry s token_data = Ret b) /\
  evaluate_entry s token_data =
    Ret (spec_policy s (field token_data "TM_TRADER_GRADE")
                       (field token_data "HOLDING_RETURNS")
                       (field token_data "TRADING_SIGNALS_RETURNS")
                       (field token_data "TOKEN_TREND")) /\
  evaluate_entry s token_data = evaluate_entry s (with_defaults token_data).
Proof.
  intros Hsnap.
  pose proof (evaluate_entry_policy s token_data Hsnap) as E.
  split; [eexists; exact E|]. split; [exact E|].
  rewrite E, (evaluate_entry_policy s _ (snapshot_with_defaults _ Hsnap)).
  now rewrite !field_with_defaults.
Qed.

Lemma C8_evaluate_total_witness :
  let token_data : gmap string pyval :=
    <["TM_TRADER_GRADE" := PyNum 85]>
    (<["TRADING_SIGNALS_RETURNS" := PyNum 2]> ∅) in
  evaluate_entry SignalReversal token_data = Ret true /\
  evaluate_entry TrendFollowing token_data = Ret false /\
  evaluate_entry LongTermHold ∅ = Ret false.
Proof.
  intros token_data.
  assert (Hsnap : snapshot token_data).
  { intros key v Hkey H. unfold numeric_fields in Hkey.
    repeat (apply elem_of_cons in Hkey as [->|Hkey]);
      [vm_compute in H; injection H as <-; eauto
      |vm_compute in H; discriminate
      |vm_compute in H; injection H as <-; eauto
      |vm_compute in H; discriminate
      |now apply elem_of_nil in Hkey]. }
  assert (Hempty : snapshot ∅).
  { intros key v _ H. rewrite lookup_empty in H. discriminate. }
  split; [|split].
  - exact (proj1 (proj2 (C8_evaluate_total SignalReversal token_data Hsnap))).
  - exact (proj1 (proj2 (C8_evaluate_total TrendFollowing token_data Hsnap))).
  - exact (proj1 (proj2 (C8_evaluate_total LongTermHold ∅ Hempty))).
Defined.

(** ** The metrics *)

Section Metrics.
Import TradingBacktester.

Lemma py_max_Qmax (a b : Q) : py_max a b = Qmax a b.
Proof.
  unfold py_max, Qgtb, Qle_bool, Qmax, GenericMinMax.gmax, Qcompare, Z.leb.
  rewrite (Z.compare_antisym (Qnum b * QDen a) (Qnum a * QDen b)).
  destruct (Qnum b * QDen a ?= Qnum a * QDen b)%Z; reflexivity.
Qed.

Lemma of_nat_pos (n : nat) : 0 < of_nat (S n).
Proof.
  unfold of_nat, Qlt. simpl. lia.
Qed.

Lemma pos_nonzero (q : Q) : 0 < q -> ~ q == 0.
Proof. intros H E. rewrite E in H. now apply Qlt_irrefl in H. Qed.

(** One turn of the loop, from a positive peak. *)
Lemma drawdown_body_spec (st : Q * Q) (trade : trade) :
  0 < snd st ->
  drawdown_body st trade = Ret (spec_drawdown_step st trade.(profit_loss)) /\
  fst st <= fst (spec_drawdown_step st trade.(profit_loss)) /\
  snd st <= snd (spec_drawdown_step st trade.(profit_loss)).
Proof.
  destruct st as [m peak]. simpl. intros Hpeak.
  unfold drawdown_body, spec_drawdown_step. simpl.
  change (if Qgtb (peak + profit_loss trade) peak
          then peak + profit_loss trade else peak)
    with (py_max peak (peak + profit_loss trade)).
  rewrite py_max_Qmax.
  assert (Hle : peak <= Qmax peak (peak + profit_loss trade))
    by apply Q.le_max_l.
  rewrite truediv_nonzero
    by (apply pos_nonzero; eapply Qlt_le_trans; eassumption).
  simpl. rewrite py_max_Qmax.
  split; [reflexivity|]. split; [apply Q.le_max_l | exact Hle].
Qed.

(** The whole loop, from a positive peak: it completes, with the state the
    scan of the specification reaches; neither component decreases. *)
Lemma for_each_drawdown_body (l : list trade) (st : Q * Q) :
  0 < snd st ->
  for_each drawdown_body l st =
    Ret (fold_left spec_drawdown_step (map profit_loss l) st) /\
  fst st <= fst (fold_left spec_drawdown_step (map profit_loss l) st) /\
  snd st <= snd (fold_left spec_drawdown_step (map profit_loss l) st).
Proof.
  revert st. induction l as [|x l IH]; intros st Hpeak; simpl.
  - repeat split; apply Qle_refl.
  - destruct (drawdown_body_spec st x Hpeak) as (-> & Hm & Hp). simpl.
    destruct (IH (spec_drawdown_step st (profit_loss x))) as (-> & Hm' & Hp').
    { eapply Qlt_le_trans; eassumption. }
    split; [reflexivity|]. split; eapply Qle_trans; eassumption.
Qed.

(** A losing trade met at a positive peak: the peak stays and the drawdown
    is computed from the value [peak + profit_loss]. *)
Lemma drawdown_body_loss (m peak : Q) (trade : trade) :
  0 < peak -> trade.(profit_loss) < 0 ->
  let d := (peak - (peak + trade.(profit_loss))) / peak * 100 in
  drawdown_body (m, peak) trade = Ret (py_max m d, peak) /\
  0 <= d /\ m <= py_max m d /\ d <= py_max m d.
Proof.
  intros Hpeak Hloss d.
  unfold drawdown_body.
  assert (Hcv : Qgtb (peak + profit_loss trade) peak = false).
  { apply Qgtb_false. lra. }
  rewrite Hcv. rewrite (truediv_nonzero _ _ (pos_nonzero _ Hpeak)). simpl.
  split; [reflexivity|]. rewrite py_max_Qmax.
  split; [|split; [apply Q.le_max_l | apply Q.le_max_r]].
  unfold d. apply Qmult_le_0_compat; [|discriminate].
  apply Qle_shift_div_l; [assumption|]. lra.
Qed.

(** What [calculate_metrics] returns on a ledger that has trades and a
    positive initial capital. *)
Lemma calculate_metrics_returns (self : t) :
  0 < self.(initial_capital) -> self.(trades) <> [] ->
  let wins := length (List.filter is_win self.(trades)) in
  let losses := length (List.filter is_loss self.(trades)) in
  let total := length self.(trades) in
  exists m,
    calculate_metrics self = (Ret m, self) /\
    m !! "total_trades" = Some (Num (of_nat total)) /\
    m !! "winning_trades" = Some (Num (of_nat wins)) /\
    m !! "losing_trades" = Some (Num (of_nat losses)) /\
    m !! "win_rate" = Some (Num (of_nat wins / of_nat total * 100)) /\
    m !! "total_return" =
      Some (Num ((self.(current_capital) - self.(initial_capital))
                 / self.(initial_capital) * 100)) /\
    m !! "max_drawdown" =
      Some (Num (spec_max_drawdown self.(initial_capital)
                   (map profit_loss self.(trades)))) /\
    m !! "final_capital" = Some (Num self.(current_capital)).
Proof.
  intros Hic Hne wins losses total.
  destruct (for_each_drawdown_body (trades self) (0, initial_capital self) Hic)
    as (Hscan & _).
  unfold calculate_metrics, mbind, read, lift, mret. simpl.
  destruct (trades self) as [|t0 l] eqn:Et; [contradiction|].
  change (0 <? length (t0 :: l))%nat with true. cbv iota.
  rewrite (truediv_nonzero _ _ (pos_nonzero _ (of_nat_pos (length l)))).
  simpl res_bind. cbv iota beta.
  rewrite (truediv_nonzero _ _ (pos_nonzero _ Hic)).
  simpl res_bind. cbv iota beta.
  rewrite Hscan. cbv iota beta.
  eexists. split; [reflexivity|].
  repeat split;
    repeat (rewrite lookup_insert_ne by discriminate);
    rewrite lookup_insert_eq; reflexivity.
Qed.

End Metrics.

(** C7: a trade whose profit and loss is zero is neither a winning nor a
    losing trade (a winning trade has a positive, a losing trade a negative
    profit and loss).  On a ledger holding such a trade the metrics count it
    in [total_trades] but in neither [winning_trades] nor [losing_trades],
    and [win_rate] is the number of winning trades over the number of all
    trades, that one included, times 100. *)
Theorem C7_zero_profit_trade (self : TradingBacktester.t)
    (l1 l2 : list TradingBacktester.trade) (t0 : TradingBacktester.trade) :
  0 < self.(TradingBacktester.initial_capital) ->
  self.(TradingBacktester.trades) = l1 ++ t0 :: l2 ->
  t0.(TradingBacktester.profit_loss) == 0 ->
  let wins := length (List.filter TradingBacktester.is_win (l1 ++ l2)) in
  let losses := length (List.filter TradingBacktester.is_loss (l1 ++ l2)) in
  let total := S (length (l1 ++ l2)) in
  (forall t, TradingBacktester.is_win t = true <->
             0 < t.(TradingBacktester.profit_loss)) /\
  (forall t, TradingBacktester.is_loss t = true <->
             t.(TradingBacktester.profit_loss) < 0) /\
  TradingBacktester.is_win t0 = false /\
  TradingBacktester.is_loss t0 = false /\
  exists m,
    TradingBacktester.calculate_metrics self = (Ret m, self) /\
    m !! "total_trades" = Some (Num (of_nat total)) /\
    m !! "winning_trades" = Some (Num (of_nat wins)) /\
    m !! "losing_trades" = Some (Num (of_nat losses)) /\
    m !! "win_rate" = Some (Num (of_nat wins / of_nat total * 100)).
Proof.
  intros Hic Htr Hz wins losses total.
  assert (Hw : TradingBacktester.is_win t0 = false).
  { apply Qgtb_false. rewrite Hz. apply Qle_refl. }
  assert (Hl : TradingBacktester.is_loss t0 = false).
  { apply Qltb_false. rewrite Hz. apply Qle_refl. }
  split; [intros t; apply Qgtb_true|].
  split; [intros t; apply Qltb_true|].
  split; [exact Hw|]. split; [exact Hl|].
  destruct (calculate_metrics_returns self Hic) as (m & E & Ht & Hwin & Hlos & Hr & _).
  { rewrite Htr. now destruct l1. }
  assert (Elen : length (TradingBacktester.trades self) = total).
  { rewrite Htr. unfold total. rewrite !length_app. simpl. lia. }
  assert (Ewin : List.filter TradingBacktester.is_win (TradingBacktester.trades self)
                 = List.filter TradingBacktester.is_win (l1 ++ l2)).
  { rewrite Htr, !List.filter_app. simpl. now rewrite Hw. }
  assert (Elos : List.filter TradingBacktester.is_loss (TradingBacktester.trades self)
                 = List.filter TradingBacktester.is_loss (l1 ++ l2)).
  { rewrite Htr, !List.filter_app. simpl. now rewrite Hl. }
  rewrite Elen, ?Ewin, ?Elos in *.
  exists m. repeat split; assumption.
Qed.

Lemma C7_zero_profit_trade_witness :
  exists m,
    TradingBacktester.calculate_metrics sample_ledger = (Ret m, sample_ledger) /\
    m !! "total_trades" = Some (Num (of_nat 3)) /\
    m !! "winning_trades" = Some (Num (of_nat 1)) /\
    m !! "losing_trades" = Some (Num (of_nat 1)) /\
    m !! "win_rate" = Some (Num (of_nat 1 / of_nat 3 * 100)).
Proof.
  apply (C7_zero_profit_trade sample_ledger
           [sample_trade "A" 110 100] [sample_trade "C" 94.5 100]
           (sample_trade "B" 100 50));
    reflexivity.
Defined.

(** C5, as stated, fails on the numbers of the program: on a ledger of
    10000 the trade bought at 1 and sold at 0.5 for the quantity 1e-12 is a
    losing trade (its profit and loss is -5e-13), but [10000 + -5e-13] is
    10000 and the drawdown it yields is 0, not a positive number. *)
Lemma C5_counterexample :
  (exists trade,
     Binary64.tiny_loss.(Binary64.trades) = [trade] /\
     PrimFloat.ltb trade.(Binary64.profit_loss) 0 = true) /\
  Binary64.max_drawdown Binary64.tiny_loss = Ret 0%float /\
  PrimFloat.ltb 0 0 = false.
Proof.
  split; [eexists; split; vm_compute; reflexivity|].
  split; vm_compute; reflexivity.
Qed.

(** C5, amended: on a ledger with trades and a positive initial capital,
    [max_drawdown] is the result of the scan of the specification over the
    trades in insertion order, from the peak [initial_capital]: the value is
    [peak + profit_loss], the peak becomes the larger of the peak and the
    value, the drawdown is [(peak - value) / peak * 100] and the result is
    the largest drawdown met.  The running maximum does not decrease from
    one scanned prefix to the next.  A losing trade met at a positive peak
    leaves the peak as it is and yields the drawdown
    [(peak - (peak + profit_loss)) / peak * 100], which is not negative and
    bounds the running maximum from below. *)
Theorem C5_max_drawdown_scan (self : TradingBacktester.t) :
  0 < self.(TradingBacktester.initial_capital) ->
  self.(TradingBacktester.trades) <> [] ->
  let ic := self.(TradingBacktester.initial_capital) in
  let loop l := for_each TradingBacktester.drawdown_body l (0, ic) in
  (exists m,
     TradingBacktester.calculate_metrics self = (Ret m, self) /\
     loop self.(TradingBacktester.trades) =
       Ret (spec_scan ic (map TradingBacktester.profit_loss
                            self.(TradingBacktester.trades))) /\
     m !! "max_drawdown" =
       Some (Num (spec_max_drawdown ic
                    (map TradingBacktester.profit_loss
                       self.(TradingBacktester.trades))))) /\
  (forall n, exists m1 p1 m2 p2,
     loop (take n self.(TradingBacktester.trades)) = Ret (m1, p1) /\
     loop (take (S n) self.(TradingBacktester.trades)) = Ret (m2, p2) /\
     0 <= m1 /\ m1 <= m2 /\ 0 < p1 /\ p1 <= p2) /\
  (forall m peak trade,
     0 < peak -> trade.(TradingBacktester.profit_loss) < 0 ->
     let d := (peak - (peak + trade.(TradingBacktester.profit_loss)))
              / peak * 100 in
     TradingBacktester.drawdown_body (m, peak) trade =
       Ret (py_max m d, peak) /\
     0 <= d /\ m <= py_max m d /\ d <= py_max m d).
Proof.
  intros Hic Hne ic loop.
  split; [|split].
  - destruct (calculate_metrics_returns self Hic Hne)
      as (m & E & _ & _ & _ & _ & _ & Hdd & _).
    exists m. split; [exact E|]. split; [|exact Hdd].
    apply (for_each_drawdown_body _ (0, ic) Hic).
  - intros n. unfold loop.
    destruct (TradingBacktester.trades self !! n) as [x|] eqn:Ex.
    + destruct (for_each_drawdown_body
                  (take n (TradingBacktester.trades self)) (0, ic) Hic)
        as (E1 & Hm1 & Hp1).
      set (st1 := fold_left spec_drawdown_step _ (0, ic)) in *.
      assert (Hpos : 0 < snd st1) by (eapply Qlt_le_trans; eassumption).
      rewrite (take_S_r _ _ _ Ex).
      destruct (for_each_drawdown_body [x] st1 Hpos) as (E2 & Hm2 & Hp2).
      simpl in E2, Hm2, Hp2.
      exists (fst st1), (snd st1),
        (fst (spec_drawdown_step st1 (TradingBacktester.profit_loss x))),
        (snd (spec_drawdown_step st1 (TradingBacktester.profit_loss x))).
      rewrite <- !surjective_pairing.
      split; [exact E1|]. split.
      * destruct (for_each_drawdown_body
                    (take n (TradingBacktester.trades self) ++ [x]) (0, ic) Hic)
          as (-> & _).
        rewrite map_app, fold_left_app. reflexivity.
      * repeat split; assumption.
    + apply lookup_ge_None in Ex.
      rewrite (take_ge _ (S n)) by lia. rewrite (take_ge _ n) by lia.
      destruct (for_each_drawdown_body
                  (TradingBacktester.trades self) (0, ic) Hic)
        as (E1 & Hm1 & Hp1).
      set (st1 := fold_left spec_drawdown_step _ (0, ic)) in *.
      exists (fst st1), (snd st1), (fst st1), (snd st1).
      rewrite <- !surjective_pairing.
      repeat split; try assumption; try apply Qle_refl.
      eapply Qlt_le_trans; eassumption.
  - intros m peak trade. apply drawdown_body_loss.
Qed.

Lemma C5_max_drawdown_scan_witness :
  (exists m,
     TradingBacktester.calculate_metrics sample_ledger = (Ret m, sample_ledger) /\
     m !! "max_drawdown" =
       Some (Num (spec_max_drawdown 10000
                    (map TradingBacktester.profit_loss
                       sample_ledger.(TradingBacktester.trades))))) /\
  spec_max_drawdown 10000
    (map TradingBacktester.profit_loss sample_ledger.(TradingBacktester.trades))
  == 5.
Proof.
  split; [|vm_compute; reflexivity].
  destruct (C5_max_drawdown_scan sample_ledger) as ((m & E & _ & H) & _);
    [reflexivity | discriminate |].
  exists m. split; [exact E | exact H].
Defined.

(** * Further properties of the code *)

(** ** The long-term hold and trend-following predicates *)

Lemma Qeq_bool_true (a b : Q) : Qeq_bool a b = true <-> a == b.
Proof. apply Qeq_bool_iff. Qed.

Lemma spec_policy_true (s : strategy) (g h sg tr : Q) :
  spec_policy s g h sg tr = true <->
  match s with
  | SignalReversal => 80 <= g /\ h < 0.10 /\ 1.00 <= sg
  | LongTermHold => 88 <= g /\ 1.00 <= h /\ (sg < 0.5 * h \/ sg < 0)
  | TrendFollowing => 75 <= g /\ tr == 1 /\ h < sg /\ 0 < sg
  end.
Proof.
  destruct s; simpl;
    rewrite ?andb_true_iff, ?orb_true_iff, ?Qgeb_true, ?Qltb_true,
      ?Qgtb_true, ?Qeq_bool_true; tauto.
Qed.

(** X1: on a snapshot with numeric grade [g], holding return [h] and
    signals return [s] (absent fields read as 0), the long-term hold
    predicate accepts exactly when [g >= 88], [h >= 1.00] and
    [s < 0.5 * h]: as [h >= 1], the alternative [s < 0] of its last test
    never changes the answer. *)
Theorem X1_long_hold_policy (token_data : gmap string pyval) (g h s : Q) :
  get token_data "TM_TRADER_GRADE" (PyNum 0) = PyNum g ->
  get token_data "HOLDING_RETURNS" (PyNum 0) = PyNum h ->
  get token_data "TRADING_SIGNALS_RETURNS" (PyNum 0) = PyNum s ->
  (exists b, LongTermHoldStrategy.evaluate_entry token_data = Ret b) /\
  (LongTermHoldStrategy.evaluate_entry token_data = Ret true <->
   88 <= g /\ 1.00 <= h /\ s < 0.5 * h).
Proof.
  intros Hg Hh Hs.
  assert (E : LongTermHoldStrategy.evaluate_entry token_data =
              Ret (spec_policy LongTermHold g h s 0)).
  { unfold LongTermHoldStrategy.evaluate_entry. rewrite Hg, Hh, Hs.
    unfold py_and, py_or, py_ge, py_lt, py_mul, spec_policy. simpl.
    destruct (Qgeb g 88), (Qgeb h 1.00), (Qltb s (0.5 * h)); reflexivity. }
  split; [eexists; exact E|].
  rewrite E. split.
  - intros [= H].
    apply (proj1 (spec_policy_true LongTermHold g h s 0)) in H. simpl in H.
    destruct H as (? & ? & [?|?]); repeat split; (assumption || lra).
  - intros (? & ? & ?). f_equal. apply (spec_policy_true LongTermHold).
    simpl. tauto.
Qed.

Lemma X1_long_hold_policy_witness :
  LongTermHoldStrategy.evaluate_entry REQ = Ret true <->
  88 <= 88.21 /\ 1.00 <= 3.7339 /\ -0.8131 < 0.5 * 3.7339.
Proof.
  apply (X1_long_hold_policy REQ 88.21 3.7339 (-0.8131)); reflexivity.
Defined.

(** X2: on a snapshot with numeric grade [g], holding return [h] and
    signals return [s], the trend-following predicate never raises,
    whatever the trend field holds, and accepts exactly when [g >= 75], the
    trend is a number equal to 1, [s > h] and [s > 0]; a trend that is
    absent, [None] or a string is a rejection. *)
Theorem X2_trend_following_policy (token_data : gmap string pyval)
    (g h s : Q) :
  get token_data "TM_TRADER_GRADE" (PyNum 0) = PyNum g ->
  get token_data "HOLDING_RETURNS" (PyNum 0) = PyNum h ->
  get token_data "TRADING_SIGNALS_RETURNS" (PyNum 0) = PyNum s ->
  (exists b, TrendFollowingStrategy.evaluate_entry token_data = Ret b) /\
  (TrendFollowingStrategy.evaluate_entry token_data = Ret true <->
   75 <= g /\
   (exists tr, token_data !! "TOKEN_TREND" = Some (PyNum tr) /\ tr == 1) /\
   h < s /\ 0 < s).
Proof.
  intros Hg Hh Hs.
  set (t := py_eq (get token_data "TOKEN_TREND" (PyNum 0)) (PyNum 1)).
  assert (E : TrendFollowingStrategy.evaluate_entry token_data =
              Ret (Qgeb g 75 && t && Qgtb s h && Qgtb s 0)).
  { unfold TrendFollowingStrategy.evaluate_entry. rewrite Hg, Hh, Hs.
    fold t. unfold py_and, py_ge, py_gt. simpl.
    destruct (Qgeb g 75), t, (Qgtb s h); reflexivity. }
  assert (Ht : t = true <->
               exists tr, token_data !! "TOKEN_TREND" = Some (PyNum tr) /\ tr == 1).
  { unfold t, get. destruct (token_data !! "TOKEN_TREND") as [[tr| |]|]; simpl.
    - rewrite Qeq_bool_true. split; [eauto|]. now intros (? & [= <-] & ?).
    - split; [discriminate|]. now intros (? & [=] & _).
    - split; [discriminate|]. now intros (? & [=] & _).
    - split; [discriminate|]. now intros (? & [=] & _). }
  split; [eexists; exact E|].
  rewrite E, <- Ht, <- Qgeb_true, <- !Qgtb_true.
  split.
  - intros [= H]. rewrite !andb_true_iff in H. tauto.
  - intros (-> & -> & -> & ->). reflexivity.
Qed.

Lemma X2_trend_following_policy_witness :
  TrendFollowingStrategy.evaluate_entry CRV = Ret true <->
  75 <= 85 /\
  (exists tr, CRV !! "TOKEN_TREND" = Some (PyNum tr) /\ tr == 1) /\
  -0.9423 < 6.8534 /\ 0 < 6.8534.
Proof.
  apply (X2_trend_following_policy CRV 85 (-0.9423) 6.8534); reflexivity.
Defined.

(** X3: a snapshot accepted by the long-term hold predicate is rejected by
    the other two: a ledger never gets a long-term hold trade and another
    trade from the same snapshot. *)
Theorem X3_long_hold_exclusive (token_data : gmap string pyval) :
  snapshot token_data ->
  evaluate_entry LongTermHold token_data = Ret true ->
  evaluate_entry SignalReversal token_data = Ret false /\
  evaluate_entry TrendFollowing token_data = Ret false.
Proof.
  intros Hsnap. rewrite !(evaluate_entry_policy _ _ Hsnap).
  intros [= H].
  apply (proj1 (spec_policy_true LongTermHold _ _ _ 0)) in H. simpl in H.
  destruct H as (Hg & Hh & Hs).
  split; f_equal; apply not_true_iff_false.
  - rewrite (spec_policy_true SignalReversal). simpl. intros H. lra.
  - rewrite (spec_policy_true TrendFollowing). simpl. intros H.
    destruct Hs; lra.
Qed.

Lemma X3_long_hold_exclusive_witness :
  evaluate_entry SignalReversal REQ = Ret false /\
  evaluate_entry TrendFollowing REQ = Ret false.
Proof.
  apply (X3_long_hold_exclusive REQ); [|reflexivity].
  intros key v Hkey H. unfold numeric_fields in Hkey.
  repeat (apply elem_of_cons in Hkey as [->|Hkey]);
    [vm_compute in H; injection H as <-; eauto ..
    |now apply elem_of_nil in Hkey].
Defined.

(** X4: a snapshot accepted by the reversal predicate whose trend is 1 is
    accepted by the trend-following predicate too. *)
Theorem X4_reversal_implies_trend (token_data : gmap string pyval) :
  snapshot token_data ->
  evaluate_entry SignalReversal token_data = Ret true ->
  field token_data "TOKEN_TREND" == 1 ->
  evaluate_entry TrendFollowing token_data = Ret true.
Proof.
  intros Hsnap. rewrite !(evaluate_entry_policy _ _ Hsnap).
  intros [= H] Ht.
  apply (proj1 (spec_policy_true SignalReversal _ _ _ 0)) in H. simpl in H.
  f_equal. apply (spec_policy_true TrendFollowing). simpl.
  repeat split; (assumption || lra).
Qed.

Lemma X4_reversal_implies_trend_witness :
  evaluate_entry TrendFollowing CRV = Ret true.
Proof.
  apply (X4_reversal_implies_trend CRV); [|reflexivity|reflexivity].
  intros key v Hkey H. unfold numeric_fields in Hkey.
  repeat (apply elem_of_cons in Hkey as [->|Hkey]);
    [vm_compute in H; injection H as <-; eauto ..
    |now apply elem_of_nil in Hkey].
Defined.

(** ** Simulated trades *)

(** The four outcomes of [simulate_trade]. *)
Lemma simulate_trade_cases (s : strategy)
    (token_data : gmap string pyval) (entry_price exit_price : Q)
    (position_size : option Q) (now1 now2 : Z)
    (self : TradingBacktester.t) :
  let out := simulate_trade s token_data entry_price exit_price
               position_size now1 now2 self in
  (evaluate_entry s token_data = Ret true /\ ~ entry_price == 0 /\
   exists trade,
     out = (Ret (Some trade),
            TradingBacktester.Backtester
              self.(TradingBacktester.initial_capital)
              (self.(TradingBacktester.current_capital)
               + trade.(TradingBacktester.profit_loss))
              self.(TradingBacktester.positions)
              (self.(TradingBacktester.trades) ++ [trade])
              self.(TradingBacktester.portfolio_history)) /\
     trade.(TradingBacktester.quantity) =
       self.(TradingBacktester.current_capital)
       * default (position_size_default s) position_size / entry_price /\
     trade.(TradingBacktester.entry_price) = entry_price /\
     trade.(TradingBacktester.profit_loss) =
       (exit_price - entry_price) * trade.(TradingBacktester.quantity)) \/
  (evaluate_entry s token_data = Ret false /\ out = (Ret None, self)) \/
  (evaluate_entry s token_data = Ret true /\ entry_price == 0 /\
   out = (Raise ZeroDivisionError, self)) \/
  (exists e, evaluate_entry s token_data = Raise e /\ out = (Raise e, self)).
Proof.
  intros out. unfold out.
  destruct (evaluate_entry s token_data) as [[|]|e] eqn:E.
  - destruct (Qeq_dec entry_price 0) as [Hen|Hen].
    + right. right. left. repeat split; [assumption|].
      now apply simulate_trade_zero_price.
    + left. repeat split; [assumption|].
      destruct (simulate_trade_accepted s token_data entry_price exit_price
                  position_size now1 now2 self E Hen)
        as (trade & Et & Hq & Hen' & _ & Hpl).
      now exists trade.
  - right. left. split; [reflexivity|]. now apply simulate_trade_rejected.
  - right. right. right. exists e. split; [reflexivity|].
    now apply simulate_trade_raised.
Qed.

(** X5: [simulate_trade] is all or nothing.  When the predicate accepts and
    the entry price is not zero it returns a trade, which it has appended.
    In every other case the ledger is left as it was: [None] on a
    rejection, [ZeroDivisionError] on an accepted snapshot with a zero entry
    price, and the exception of the predicate when it raises. *)
Theorem X5_simulate_trade_outcomes (s : strategy)
    (token_data : gmap string pyval) (entry_price exit_price : Q)
    (position_size : option Q) (now1 now2 : Z)
    (self : TradingBacktester.t) :
  let out := simulate_trade s token_data entry_price exit_price
               position_size now1 now2 self in
  (evaluate_entry s token_data = Ret true /\ ~ entry_price == 0 /\
   exists trade,
     out = (Ret (Some trade),
            TradingBacktester.Backtester
              self.(TradingBacktester.initial_capital)
              (self.(TradingBacktester.current_capital)
               + trade.(TradingBacktester.profit_loss))
              self.(TradingBacktester.positions)
              (self.(TradingBacktester.trades) ++ [trade])
              self.(TradingBacktester.portfolio_history))) \/
  (evaluate_entry s token_data = Ret false /\ out = (Ret None, self)) \/
  (evaluate_entry s token_data = Ret true /\ entry_price == 0 /\
   out = (Raise ZeroDivisionError, self)) \/
  (exists e, evaluate_entry s token_data = Raise e /\ out = (Raise e, self)).
Proof.
  intros out. unfold out.
  destruct (simulate_trade_cases s token_data entry_price exit_price
              position_size now1 now2 self)
    as [(E & Hne & trade & Et & _)|[H|[H|H]]]; [left|right; tauto ..].
  repeat split; [assumption..|]. now exists trade.
Qed.

(** X7: the trade of an accepted snapshot carries the symbol of the token,
    ['UNKNOWN'] when the token has no [TOKEN_SYMBOL], the name of the
    strategy and the prices it was given.  Its entry date is the first
    reading of the clock less 30, 180 or 14 days (reversal, long-term hold,
    trend following) and its exit date the second reading, so that the
    entry precedes the exit when the clock does not go back. *)
Theorem X7_simulate_trade_record (s : strategy)
    (token_data : gmap string pyval) (entry_price exit_price : Q)
    (position_size : option Q) (now1 now2 : Z) (self : TradingBacktester.t) :
  evaluate_entry s token_data = Ret true -> ~ entry_price == 0 ->
  exists trade self',
    simulate_trade s token_data entry_price exit_price position_size
      now1 now2 self
    = (Ret (Some trade), self') /\
    trade.(TradingBacktester.symbol) =
      match token_data !! "TOKEN_SYMBOL" with
      | Some sym => sym
      | None => PyStr "UNKNOWN"
      end /\
    trade.(TradingBacktester.strategy) = strategy_name s /\
    trade.(TradingBacktester.entry_price) = entry_price /\
    trade.(TradingBacktester.exit_price) = exit_price /\
    trade.(TradingBacktester.entry_date) = (now1 - holding_days s * 86400)%Z /\
    trade.(TradingBacktester.exit_date) = now2 /\
    ((now1 <= now2)%Z ->
     (trade.(TradingBacktester.entry_date)
      < trade.(TradingBacktester.exit_date))%Z).
Proof.
  intros E Hen.
  destruct s; unfold simulate_trade, evaluate_entry in *;
    unfold SignalReversalStrategy.simulate_trade,
      LongTermHoldStrategy.simulate_trade,
      TrendFollowingStrategy.simulate_trade, mbind, lift, read, mret;
    rewrite E, (truediv_nonzero _ _ Hen),
      (add_trade_returns _ _ _ _ _ _ _ _ Hen);
    eexists _, _; (split; [reflexivity|]); simpl;
    unfold get, timedelta;
    (repeat split; try reflexivity);
    try (destruct (token_data !! "TOKEN_SYMBOL"); reflexivity);
    simpl; lia.
Qed.

Lemma X7_simulate_trade_record_witness :
  exists trade self',
    simulate_trade LongTermHold (delete "TOKEN_SYMBOL" REQ) 100 473.39 None
      1000000000 1000000002 fresh_ledger = (Ret (Some trade), self') /\
    trade.(TradingBacktester.symbol) = PyStr "UNKNOWN" /\
    trade.(TradingBacktester.strategy) = "TM Grade & Long-Term Hold"%string /\
    trade.(TradingBacktester.entry_date) = 984448000%Z /\
    trade.(TradingBacktester.exit_date) = 1000000002%Z.
Proof.
  destruct (X7_simulate_trade_record LongTermHold (delete "TOKEN_SYMBOL" REQ)
              100 473.39 None 1000000000 1000000002 fresh_ledger)
    as (trade & self' & E & Hsym & Hname & _ & _ & Hentry & Hexit & _);
    [reflexivity | discriminate |].
  exists trade, self'. repeat split; assumption.
Defined.

(** ** Appended trades *)

(** X9: with a positive entry price and a positive quantity, the trade
    returned by [add_trade] is a winning trade only if the exit price is
    above the entry price, and its percentage is then not negative; it is a
    losing trade only if the exit price is below the entry price, and its
    percentage is then not positive; sold at the entry price it is neither
    a winning nor a losing trade. *)
Theorem X9_add_trade_consistent (sym : pyval) (en ex qty : Q) (d1 d2 : Z)
    (strat : string) (self : TradingBacktester.t) :
  0 < en -> 0 < qty ->
  exists trade self',
    TradingBacktester.add_trade sym en ex qty d1 d2 strat self
    = (Ret trade, self') /\
    (TradingBacktester.is_win trade = true ->
     en < ex /\ 0 <= trade.(TradingBacktester.pnl_pct)) /\
    (TradingBacktester.is_loss trade = true ->
     ex < en /\ trade.(TradingBacktester.pnl_pct) <= 0) /\
    (ex == en ->
     TradingBacktester.is_win trade = false /\
     TradingBacktester.is_loss trade = false).
Proof.
  intros Hpos Hqty.
  assert (Hen : ~ en == 0) by lra.
  eexists _, _.
  split; [now apply add_trade_returns|]. simpl.
  unfold TradingBacktester.is_win, TradingBacktester.is_loss. simpl.
  rewrite Qgtb_true, Qltb_true, Qgtb_false, Qltb_false.
  assert (Hinv : 0 < / en) by now apply Qinv_lt_0_compat.
  assert (Hpct : (ex - en) / en * 100 == (ex - en) * (100 * / en))
    by (field; exact Hen).
  assert (Hk : 0 < 100 * / en)
    by (apply Qmult_lt_0_compat; [reflexivity | assumption]).
  rewrite Hpct.
  split; [|split].
  - intros H.
    assert (Hlt : en < ex).
    { destruct (Qlt_le_dec en ex) as [?|Hle]; [assumption|].
      assert ((ex - en) * qty <= 0); [|lra].
      rewrite <- (Qmult_0_l qty). apply Qmult_le_compat_r; lra. }
    split; [exact Hlt|]. apply Qmult_le_0_compat; lra.
  - intros H.
    assert (Hlt : ex < en).
    { destruct (Qlt_le_dec ex en) as [?|Hle]; [assumption|].
      assert (0 <= (ex - en) * qty); [|lra].
      apply Qmult_le_0_compat; lra. }
    split; [exact Hlt|].
    rewrite <- (Qmult_0_l (100 * / en)). apply Qmult_le_compat_r; lra.
  - intros Heq.
    assert (Hz : (ex - en) * qty == 0) by (rewrite Heq; ring).
    rewrite Hz. split; apply Qle_refl.
Qed.

Lemma X9_add_trade_consistent_witness :
  exists trade self',
    TradingBacktester.add_trade (PyStr "X") 10 8 3 0 1 "manual" fresh_ledger
    = (Ret trade, self') /\
    (TradingBacktester.is_loss trade = true ->
     8 < 10 /\ trade.(TradingBacktester.pnl_pct) <= 0).
Proof.
  destruct (X9_add_trade_consistent (PyStr "X") 10 8 3 0 1 "manual"
              fresh_ledger) as (trade & self' & E & _ & Hl & _);
    [reflexivity | reflexivity |].
  exists trade, self'. split; [exact E | exact Hl].
Defined.

(** One call appends at most one trade and changes nothing else than the
    current capital. *)
Lemma exec_frame (c : call) (self : TradingBacktester.t) :
  (exec c self).(TradingBacktester.initial_capital)
  = self.(TradingBacktester.initial_capital) /\
  (exec c self).(TradingBacktester.positions)
  = self.(TradingBacktester.positions) /\
  (exec c self).(TradingBacktester.portfolio_history)
  = self.(TradingBacktester.portfolio_history) /\
  exists new, (exec c self).(TradingBacktester.trades)
              = self.(TradingBacktester.trades) ++ new /\
              (length new <= 1)%nat.
Proof.
  assert (Hsame : forall self' : TradingBacktester.t, self' = self ->
    TradingBacktester.initial_capital self'
    = TradingBacktester.initial_capital self /\
    TradingBacktester.positions self' = TradingBacktester.positions self /\
    TradingBacktester.portfolio_history self'
    = TradingBacktester.portfolio_history self /\
    exists new, TradingBacktester.trades self'
                = TradingBacktester.trades self ++ new /\ (length new <= 1)%nat).
  { intros ? ->. repeat split. exists []. rewrite app_nil_r. split; [reflexivity|simpl; lia]. }
  destruct c as [sym en ex qty d1 d2 strat | s td en ex ps now1 now2 |]; simpl.
  - destruct (add_trade_cases sym en ex qty d1 d2 strat self) as [->|[tr ->]];
      simpl; [now apply Hsame|].
    repeat split. exists [tr]. split; [reflexivity | simpl; lia].
  - destruct (simulate_trade_cases s td en ex ps now1 now2 self)
      as [(_ & _ & tr & -> & _)|[(_ & ->)|[(_ & _ & ->)|(e & _ & ->)]]];
      simpl; try now apply Hsame.
    repeat split. exists [tr]. split; [reflexivity | simpl; lia].
  - rewrite calculate_metrics_state. now apply Hsame.
Qed.

(** X10: the ledger is append-only.  Whatever the calls of a run (appends,
    simulated trades, metric computations, failing or not), the trades
    present before are a prefix of the trades afterwards, at most one trade
    is added per call, and the initial capital, [positions] and
    [portfolio_history] are never changed. *)
Theorem X10_run_append_only (cs : list call) (self : TradingBacktester.t) :
  (run cs self).(TradingBacktester.initial_capital)
  = self.(TradingBacktester.initial_capital) /\
  (run cs self).(TradingBacktester.positions)
  = self.(TradingBacktester.positions) /\
  (run cs self).(TradingBacktester.portfolio_history)
  = self.(TradingBacktester.portfolio_history) /\
  exists new, (run cs self).(TradingBacktester.trades)
              = self.(TradingBacktester.trades) ++ new /\
              (length new <= length cs)%nat.
Proof.
  revert self. induction cs as [|c cs IH]; intros self; simpl.
  - repeat split. exists []. now rewrite app_nil_r.
  - destruct (IH (exec c self)) as (Hi & Hp & Hh & new & Ht & Hlen).
    destruct (exec_frame c self) as (Hi' & Hp' & Hh' & new' & Ht' & Hlen').
    unfold run in *. simpl.
    rewrite Hi, Hp, Hh, Ht, Hi', Hp', Hh', Ht'.
    repeat split. exists (new' ++ new).
    rewrite app_assoc, length_app. split; [reflexivity | lia].
Qed.

(** ** The dictionary of metrics *)

Section MoreMetrics.
Import TradingBacktester.

Lemma truediv_raise (a b : Q) (e : exn) :
  truediv a b = Raise e -> e = ZeroDivisionError.
Proof. unfold truediv. destruct (Qeq_bool b 0); congruence. Qed.

Lemma drawdown_loop_raise (l : list trade) (st : Q * Q) (e : exn) :
  for_each drawdown_body l st = Raise e -> e = ZeroDivisionError.
Proof.
  revert st. induction l as [|x l IH]; intros st E; simpl in E;
    [discriminate|].
  destruct (drawdown_body st x) as [st'|e'] eqn:Eb; simpl in E;
    [now apply (IH st')|].
  injection E as <-. destruct st as [m pk]. unfold drawdown_body in Eb.
  destruct (truediv _ _) eqn:Et; simpl in Eb; [discriminate|].
  injection Eb as <-. now apply truediv_raise in Et.
Qed.

(** The shape of what [calculate_metrics] returns or raises. *)
Lemma calculate_metrics_shape (self : t) :
  match calculate_metrics self with
  | (Ret m, _) =>
      (self.(trades) = [] /\ m = ∅) \/
      (self.(trades) <> [] /\ dom m = metrics_keys)
  | (Raise e, _) => self.(trades) <> [] /\ e = ZeroDivisionError
  end.
Proof.
  unfold calculate_metrics, mbind, read, lift, mret. simpl.
  destruct (for_each drawdown_body (trades self) (0, initial_capital self))
    as [st|e3] eqn:E3.
  all: destruct (trades self) as [|t0 l]; [now left|].
  all: change (0 <? length (t0 :: l))%nat with true; cbv iota.
  all: destruct (truediv (of_nat _) (of_nat _)) as [r1|e1] eqn:E1; simpl;
    [|split; [discriminate | now apply truediv_raise in E1]].
  all: destruct (truediv _ (initial_capital self)) as [r2|e2] eqn:E2; simpl;
    [|split; [discriminate | now apply truediv_raise in E2]].
  2: { split; [discriminate | now apply drawdown_loop_raise in E3]. }
  right. split; [discriminate|].
  rewrite !dom_insert_L, dom_empty_L. reflexivity.
Qed.

(** X11: [calculate_metrics] returns the empty dictionary exactly on a
    ledger without trades; any other dictionary it returns has exactly the
    ten keys [total_trades], [winning_trades], [losing_trades], [win_rate],
    [total_return], [avg_win], [avg_loss], [profit_factor], [max_drawdown]
    and [final_capital]; when it raises, the ledger has trades and the
    exception is [ZeroDivisionError]. *)
Theorem X11_metrics_keys (self : t) :
  match calculate_metrics self with
  | (Ret m, _) =>
      (self.(trades) = [] /\ m = ∅) \/
      (self.(trades) <> [] /\ dom m = metrics_keys)
  | (Raise e, _) => self.(trades) <> [] /\ e = ZeroDivisionError
  end.
Proof. apply calculate_metrics_shape. Qed.

(** X12: on a ledger that has trades and a zero initial capital,
    [calculate_metrics] raises [ZeroDivisionError] (the total return divides
    by the initial capital) and leaves the ledger as it was. *)
Theorem X12_metrics_zero_capital (self : t) :
  self.(trades) <> [] -> self.(initial_capital) == 0 ->
  calculate_metrics self = (Raise ZeroDivisionError, self).
Proof.
  intros Hne Hic.
  unfold calculate_metrics, mbind, read, lift, mret. simpl.
  destruct (trades self) as [|t0 l] eqn:Et; [contradiction|].
  change (0 <? length (t0 :: l))%nat with true. cbv iota.
  rewrite (truediv_nonzero _ _ (pos_nonzero _ (of_nat_pos (length l)))).
  simpl res_bind. cbv iota beta.
  now rewrite (truediv_zero _ _ Hic).
Qed.

Lemma X12_metrics_zero_capital_witness :
  let self :=
    snd (add_trade (PyStr "X") 10 8 3 0 1 "manual" (Backtester 0 0 ∅ [] [])) in
  calculate_metrics self = (Raise ZeroDivisionError, self).
Proof.
  intros self. apply (X12_metrics_zero_capital self);
    [discriminate | reflexivity].
Defined.

(** X14: on a ledger with trades and a positive initial capital the
    reported final capital is the current capital and the reported total
    return is [(current_capital - initial_capital) / initial_capital * 100];
    a positive total return means that the capital is above the initial
    capital, a negative one that it is below, and the total return is 0
    when the capital is the initial capital. *)
Theorem X14_total_return (self : t) :
  0 < self.(initial_capital) -> self.(trades) <> [] ->
  exists m r,
    calculate_metrics self = (Ret m, self) /\
    m !! "total_return" = Some (Num r) /\
    r = (self.(current_capital) - self.(initial_capital))
        / self.(initial_capital) * 100 /\
    m !! "final_capital" = Some (Num self.(current_capital)) /\
    (0 < r -> self.(initial_capital) < self.(current_capital)) /\
    (r < 0 -> self.(current_capital) < self.(initial_capital)) /\
    (self.(current_capital) == self.(initial_capital) -> r == 0).
Proof.
  intros Hic Hne.
  destruct (calculate_metrics_returns self Hic Hne)
    as (m & E & _ & _ & _ & _ & Hr & _ & Hc).
  assert (Hnz := pos_nonzero _ Hic).
  eexists m, _.
  split; [exact E|]. split; [exact Hr|]. split; [reflexivity|].
  split; [exact Hc|].
  set (ic := initial_capital self) in *. set (cc := current_capital self).
  assert (Hd : (cc - ic) / ic * 100 == (cc - ic) * (100 * / ic))
    by (field; exact Hnz).
  assert (Hk : 0 < 100 * / ic).
  { apply Qmult_lt_0_compat; [reflexivity | now apply Qinv_lt_0_compat]. }
  rewrite Hd. split; [|split]; intros H.
  - destruct (Qlt_le_dec ic cc) as [?|Hle]; [assumption|].
    assert ((cc - ic) * (100 * / ic) <= 0); [|lra].
    rewrite <- (Qmult_0_l (100 * / ic)). apply Qmult_le_compat_r; lra.
  - destruct (Qlt_le_dec cc ic) as [?|Hle]; [assumption|].
    assert (0 <= (cc - ic) * (100 * / ic)); [|lra].
    apply Qmult_le_0_compat; lra.
  - rewrite H. ring.
Qed.

Lemma X14_total_return_witness :
  exists m r,
    calculate_metrics sample_ledger = (Ret m, sample_ledger) /\
    m !! "total_return" = Some (Num r) /\ 0 < r.
Proof.
  destruct (X14_total_return sample_ledger)
    as (m & r & E & Hr & -> & _); [reflexivity | discriminate |].
  eexists m, _. split; [exact E|]. split; [exact Hr|].
  vm_compute. reflexivity.
Defined.

Lemma of_nat_le (a b : nat) : of_nat a <= of_nat b <-> (a <= b)%nat.
Proof. unfold of_nat. rewrite <- Zle_Qle. lia. Qed.

Lemma of_nat_eq (a b : nat) : of_nat a == of_nat b <-> a = b.
Proof. unfold of_nat. rewrite inject_Z_injective. lia. Qed.

Lemma filter_length_all {A} (f : A -> bool) (l : list A) :
  length (List.filter f l) = length l <-> Forall (fun x => f x = true) l.
Proof.
  induction l as [|x l IH]; simpl.
  - split; [constructor | reflexivity].
  - pose proof (List.filter_length_le f l) as Hle.
    destruct (f x) eqn:E; simpl.
    + split.
      * intros [= H]. constructor; [assumption | now apply IH].
      * intros H. inversion H; subst. f_equal. now apply IH.
    + split; [lia|]. intros H. inversion H; subst. congruence.
Qed.

Lemma filter_length_none {A} (f : A -> bool) (l : list A) :
  length (List.filter f l) = 0%nat <-> Forall (fun x => f x = false) l.
Proof.
  induction l as [|x l IH]; simpl.
  - split; [constructor | reflexivity].
  - destruct (f x) eqn:E; simpl.
    + split; [discriminate|]. intros H. inversion H; subst. congruence.
    + rewrite IH. split.
      * intros H. now constructor.
      * intros H. now inversion H.
Qed.

Lemma wins_losses_le (l : list trade) :
  (length (List.filter is_win l) + length (List.filter is_loss l)
   <= length l)%nat.
Proof.
  induction l as [|x l IH]; simpl; [lia|].
  destruct (is_win x) eqn:Ew, (is_loss x) eqn:El; simpl; try lia.
  apply Qgtb_true in Ew. apply Qltb_true in El. lra.
Qed.

(** A ratio of counts, as a percentage. *)
Lemma percentage_bounds (a n : nat) :
  (a <= S n)%nat ->
  let w := of_nat a / of_nat (S n) * 100 in
  0 <= w /\ w <= 100 /\ (w == 100 <-> a = S n) /\ (w == 0 <-> a = 0%nat).
Proof.
  intros Hle w.
  pose proof (of_nat_pos n) as Hn.
  assert (Ha : 0 <= of_nat a) by (apply (of_nat_le 0 a); lia).
  assert (Han : of_nat a <= of_nat (S n)) by now apply of_nat_le.
  set (x := of_nat a / of_nat (S n)).
  assert (Hx0 : 0 <= x) by (apply Qle_shift_div_l; [assumption | lra]).
  assert (Hx1 : x <= 1) by (apply Qle_shift_div_r; [assumption | lra]).
  assert (Hax : of_nat a == x * of_nat (S n)).
  { unfold x. field. now apply pos_nonzero. }
  fold x in w. unfold w.
  split; [lra|]. split; [lra|]. split.
  - rewrite <- of_nat_eq. split; intros H.
    + rewrite Hax. assert (x == 1) as -> by lra. ring.
    + assert (x == 1); [|lra]. unfold x. rewrite H. field.
      now apply pos_nonzero.
  - rewrite <- (of_nat_eq a 0). change (of_nat 0) with 0. split; intros H.
    + rewrite Hax. assert (x == 0) as -> by lra. ring.
    + assert (x == 0); [|lra]. unfold x. rewrite H. field.
      now apply pos_nonzero.
Qed.

(** X13: on a ledger with trades and a positive initial capital the win
    rate lies between 0 and 100; it is 100 exactly when every trade made a
    profit and 0 exactly when none did; winning and losing trades together
    are at most all the trades. *)
Theorem X13_win_rate_bounds (self : t) :
  0 < self.(initial_capital) -> self.(trades) <> [] ->
  exists m w,
    calculate_metrics self = (Ret m, self) /\
    m !! "win_rate" = Some (Num w) /\
    0 <= w /\ w <= 100 /\
    (w == 100 <-> Forall (fun t => 0 < t.(profit_loss)) self.(trades)) /\
    (w == 0 <-> Forall (fun t => t.(profit_loss) <= 0) self.(trades)) /\
    (length (winners self) + length (losers self)
     <= length self.(trades))%nat.
Proof.
  intros Hic Hne.
  destruct (calculate_metrics_returns self Hic Hne)
    as (m & E & _ & _ & _ & Hw & _).
  eexists m, _. split; [exact E|]. split; [exact Hw|].
  destruct (trades self) as [|t0 l] eqn:Et; [contradiction|].
  pose proof (List.filter_length_le is_win (t0 :: l)) as Hle.
  change (length (t0 :: l)) with (S (length l)) in *.
  destruct (percentage_bounds _ _ Hle) as (H0 & H100 & Hall & Hnone).
  split; [exact H0|]. split; [exact H100|].
  split; [|split].
  - rewrite Hall.
    change (S (length l)) with (length (t0 :: l)).
    rewrite filter_length_all.
    apply Forall_iff. intros t. apply Qgtb_true.
  - rewrite Hnone, filter_length_none.
    apply Forall_iff. intros t. apply Qgtb_false.
  - unfold winners, losers. rewrite Et. apply wins_losses_le.
Qed.

Lemma X13_win_rate_bounds_witness :
  exists m w,
    calculate_metrics sample_ledger = (Ret m, sample_ledger) /\
    m !! "win_rate" = Some (Num w) /\ 0 <= w /\ w <= 100.
Proof.
  destruct (X13_win_rate_bounds sample_ledger)
    as (m & w & E & Hw & H0 & H100 & _); [reflexivity | discriminate |].
  exists m, w. split; [exact E|]. split; [exact Hw|]. split; assumption.
Defined.

(** The scan when no trade loses money: the running maximum stays where it
    was. *)
Lemma scan_without_loss (l : list Q) (st : Q * Q) :
  0 < snd st -> 0 <= fst st -> Forall (fun p => 0 <= p) l ->
  fst (fold_left spec_drawdown_step l st) == fst st.
Proof.
  revert st. induction l as [|pl l IH]; intros [m peak] Hpeak Hm Hall;
    simpl in *; [reflexivity|].
  inversion Hall as [|? ? Hpl Hl]; subst.
  set (cv := peak + pl).
  assert (Hmax : Qmax peak cv == cv) by (apply Q.max_r; unfold cv; lra).
  assert (Hd : (Qmax peak cv - cv) / Qmax peak cv * 100 == 0).
  { rewrite Hmax. field. unfold cv. lra. }
  assert (Hm' : Qmax m ((Qmax peak cv - cv) / Qmax peak cv * 100) == m).
  { apply Q.max_l. rewrite Hd. exact Hm. }
  rewrite IH; simpl; fold cv; try assumption.
  - eapply Qlt_le_trans; [exact Hpeak | apply Q.le_max_l].
  - rewrite Hm'. exact Hm.
Qed.

Lemma Forall_or_Exists_loss (l : list Q) :
  Forall (fun q => 0 <= q) l \/ Exists (fun q => q < 0) l.
Proof.
  induction l as [|q l [IH|IH]]; [left; constructor | |].
  - destruct (Qlt_le_dec q 0); [right; now left | left; now constructor].
  - right. now right.
Qed.

(** X17: on a ledger with trades and a positive initial capital the maximum
    drawdown is never negative; it is 0 when no trade lost money, so that a
    positive maximum drawdown shows a losing trade. *)
Theorem X17_max_drawdown_zero (self : t) :
  0 < self.(initial_capital) -> self.(trades) <> [] ->
  exists m d,
    calculate_metrics self = (Ret m, self) /\
    m !! "max_drawdown" = Some (Num d) /\
    0 <= d /\
    (Forall (fun t => 0 <= t.(profit_loss)) self.(trades) -> d == 0) /\
    (0 < d -> Exists (fun t => t.(profit_loss) < 0) self.(trades)).
Proof.
  intros Hic Hne.
  destruct (calculate_metrics_returns self Hic Hne)
    as (m & E & _ & _ & _ & _ & _ & Hdd & _).
  eexists m, _. split; [exact E|]. split; [exact Hdd|].
  unfold spec_max_drawdown, spec_scan.
  destruct (for_each_drawdown_body (trades self) (0, initial_capital self) Hic)
    as (_ & H0 & _).
  simpl in H0. split; [exact H0|].
  assert (Hz : Forall (fun t => 0 <= profit_loss t) (trades self) ->
               fst (fold_left spec_drawdown_step
                      (map profit_loss (trades self))
                      (0, initial_capital self)) == 0).
  { intros Hf.
    apply (scan_without_loss _ (0, initial_capital self));
      [exact Hic | apply Qle_refl | now apply Forall_map]. }
  split; [exact Hz|].
  intros Hpos.
  destruct (Forall_or_Exists_loss (map profit_loss (trades self)))
    as [Hf|He].
  - apply (proj1 (List.Forall_map profit_loss (fun p => 0 <= p) _)) in Hf.
    rewrite (Hz Hf) in Hpos. lra.
  - apply (proj1 (List.Exists_map profit_loss (fun p => p < 0) _)) in He.
    exact He.
Qed.

Lemma X17_max_drawdown_zero_witness :
  exists m d,
    calculate_metrics sample_ledger = (Ret m, sample_ledger) /\
    m !! "max_drawdown" = Some (Num d) /\ 0 <= d.
Proof.
  destruct (X17_max_drawdown_zero sample_ledger)
    as (m & d & E & Hd & H0 & _); [reflexivity | discriminate |].
  exists m, d. split; [exact E|]. split; [exact Hd | exact H0].
Defined.

(** The loop when no trade makes a profit: the peak stays. *)
Lemma for_each_drawdown_losses (l : list trade) (m peak : Q) :
  0 < peak -> Forall (fun t => t.(profit_loss) <= 0) l ->
  for_each drawdown_body l (m, peak) =
  Ret (fold_left
         (fun acc t =>
            py_max acc ((peak - (peak + t.(profit_loss))) / peak * 100))
         l m,
       peak).
Proof.
  intros Hpeak. revert m. induction l as [|x l IH]; intros m Hall; simpl;
    [reflexivity|].
  inversion Hall as [|? ? Hx Hl]; subst.
  assert (Hcv : Qgtb (peak + profit_loss x) peak = false)
    by (apply Qgtb_false; lra).
  rewrite Hcv, (truediv_nonzero _ _ (pos_nonzero _ Hpeak)). simpl.
  now apply IH.
Qed.

(** X18: the losses of successive trades are not accumulated.  On a ledger
    with a positive initial capital on which no trade made a profit, every
    drawdown is measured from the initial capital: the maximum drawdown is
    the largest of the values
    [(initial_capital - (initial_capital + profit_loss)) / initial_capital * 100]
    of the single trades, however far the capital has fallen.  (Two
    successive losses of 1000 on 10000 give 10, although the capital fell
    by 20 percent.) *)
Theorem X18_max_drawdown_single_loss (self : t) :
  0 < self.(initial_capital) -> self.(trades) <> [] ->
  Forall (fun t => t.(profit_loss) <= 0) self.(trades) ->
  exists m,
    calculate_metrics self = (Ret m, self) /\
    m !! "max_drawdown" =
      Some (Num (fold_left
                   (fun acc t =>
                      py_max acc
                        ((self.(initial_capital)
                          - (self.(initial_capital) + t.(profit_loss)))
                         / self.(initial_capital) * 100))
                   self.(trades) 0)).
Proof.
  intros Hic Hne Hall.
  destruct (calculate_metrics_returns self Hic Hne)
    as (m & E & _ & _ & _ & _ & _ & Hdd & _).
  exists m. split; [exact E|]. rewrite Hdd. do 2 f_equal.
  destruct (for_each_drawdown_body (trades self) (0, initial_capital self) Hic)
    as (Hscan & _).
  rewrite (for_each_drawdown_losses _ 0 _ Hic Hall) in Hscan.
  injection Hscan as Hscan. unfold spec_max_drawdown, spec_scan.
  now rewrite <- Hscan.
Qed.

Lemma X18_max_drawdown_single_loss_witness :
  (exists m d,
     calculate_metrics losing_ledger = (Ret m, losing_ledger) /\
     m !! "max_drawdown" = Some (Num d) /\ d == 10) /\
  losing_ledger.(current_capital) == 8000.
Proof.
  split; [|vm_compute; reflexivity].
  destruct (X18_max_drawdown_single_loss losing_ledger) as (m & E & Hd);
    [reflexivity | discriminate | repeat constructor; discriminate |].
  eexists m, _. split; [exact E|]. split; [exact Hd|].
  vm_compute. reflexivity.
Defined.

End MoreMetrics.

(** ** The driver *)

Section Driver.
Import TradingBacktester.

(** Two ledgers that differ at most by the dates of their trades. *)
Lemma undate_ledger_inv (self self' : t) :
  undate_ledger self = undate_ledger self' ->
  initial_capital self = initial_capital self' /\
  current_capital self = current_capital self' /\
  positions self = positions self' /\
  map undate_trade (trades self) = map undate_trade (trades self') /\
  portfolio_history self = portfolio_history self'.
Proof.
  unfold undate_ledger, set_trades. intros [= H1 H2 H3 H4 H5].
  repeat split; assumption.
Qed.

Lemma undate_ledger_append (self self' : t) (c : Q) (trade trade' : trade) :
  undate_ledger self = undate_ledger self' ->
  undate_trade trade = undate_trade trade' ->
  undate_ledger
    (Backtester (initial_capital self) c (positions self)
       (trades self ++ [trade]) (portfolio_history self)) =
  undate_ledger
    (Backtester (initial_capital self') c (positions self')
       (trades self' ++ [trade']) (portfolio_history self')).
Proof.
  intros H Ht. apply undate_ledger_inv in H as (-> & _ & -> & Hm & ->).
  unfold undate_ledger, set_trades. simpl.
  rewrite !map_app, Hm. simpl. now rewrite Ht.
Qed.

(** [simulate_trade] reads the ledger and the clock only to date the
    trade. *)
Lemma simulate_trade_undate s (token : gmap string pyval) (en ex : Q)
    (ps : option Q) (n1 n2 n1' n2' : Z) (self self' : t) :
  undate_ledger self = undate_ledger self' ->
  undate_ledger (snd (simulate_trade s token en ex ps n1 n2 self)) =
  undate_ledger (snd (simulate_trade s token en ex ps n1' n2' self')) /\
  match fst (simulate_trade s token en ex ps n1 n2 self),
        fst (simulate_trade s token en ex ps n1' n2' self') with
  | Ret (Some trade), Ret (Some trade') =>
      undate_trade trade = undate_trade trade'
  | Ret None, Ret None => True
  | Raise e, Raise e' => e = e'
  | _, _ => False
  end.
Proof.
  intros H.
  destruct (evaluate_entry s token) as [[|]|e] eqn:E.
  - destruct (Qeq_dec en 0) as [Hen|Hen].
    + rewrite !(simulate_trade_zero_price _ _ _ _ _ _ _ _ E Hen). now split.
    + pose proof (undate_ledger_inv _ _ H) as (_ & Hc & _).
      destruct s; unfold simulate_trade, evaluate_entry in *;
        unfold SignalReversalStrategy.simulate_trade,
          LongTermHoldStrategy.simulate_trade,
          TrendFollowingStrategy.simulate_trade, mbind, lift, read, mret;
        rewrite E, <- Hc, !(truediv_nonzero _ _ Hen),
          !(add_trade_returns _ _ _ _ _ _ _ _ Hen); simpl; rewrite <- Hc;
        (split; [now apply undate_ledger_append | reflexivity]).
  - rewrite !(simulate_trade_rejected _ _ _ _ _ _ _ _ E). now split.
  - rewrite !(simulate_trade_raised _ _ _ _ _ _ _ _ _ E). now split.
Qed.

Lemma test_strategy_undate (clock clock' : nat -> Z) (label : string) s
    (token : gmap string pyval) (en ex : Q) (st st' : locals) :
  undate_locals st = undate_locals st' ->
  outcome_map undate_locals (test_strategy clock label s token en ex st) =
  outcome_map undate_locals (test_strategy clock' label s token en ex st').
Proof.
  intros H. unfold test_strategy.
  pose proof (f_equal backtester H) as Hb.
  pose proof (f_equal results H) as Hr.
  pose proof (f_equal clock_reads H) as Hn.
  cbn [undate_locals backtester results clock_reads] in Hb, Hr, Hn.
  destruct (evaluate_entry s token) as [[|]|e]; simpl; try reflexivity;
    [|exact (f_equal Done H)].
  destruct (simulate_trade_undate s token en ex None
              (clock (clock_reads st)) (clock (S (clock_reads st)))
              (clock' (clock_reads st')) (clock' (S (clock_reads st')))
              _ _ Hb) as [Hs Hf].
  destruct (simulate_trade s token en ex None (clock _) (clock _) _)
    as [[[trade|]|e] self1];
    destruct (simulate_trade s token en ex None (clock' _) (clock' _) _)
      as [[[trade'|]|e'] self1']; simpl in *; try contradiction.
  - destruct (getitem token "TOKEN_SYMBOL") as [sym|]; simpl; [|reflexivity].
    unfold undate_locals. simpl.
    assert (Hp : pnl_pct trade = pnl_pct trade')
      by (change (pnl_pct (undate_trade trade) = pnl_pct (undate_trade trade'));
          now rewrite Hf).
    now rewrite Hs, Hr, Hn, Hp.
  - unfold undate_locals. simpl. now rewrite Hs, Hr, Hn.
  - now subst.
Qed.

Lemma outcome_map_done {A B} (f : A -> B) (o o' : outcome A) :
  outcome_map f o = outcome_map f o' ->
  match o, o' with
  | Done a, Done a' => f a = f a'
  | Failed err, Failed err' => err = err'
  | _, _ => False
  end.
Proof. destruct o, o'; simpl; intros [=]; congruence. Qed.

Lemma simulation_body_undate (clock clock' : nat -> Z) (st st' : locals)
    (token : gmap string pyval) :
  undate_locals st = undate_locals st' ->
  outcome_map undate_locals (simulation_body clock st token) =
  outcome_map undate_locals (simulation_body clock' st' token).
Proof.
  intros H. unfold simulation_body.
  destruct (getitem token "HOLDING_RETURNS") as [h|]; simpl; [|reflexivity].
  destruct (exit_price_of 100 h) as [hx|]; simpl; [|reflexivity].
  destruct (getitem token "TRADING_SIGNALS_RETURNS") as [sg|]; simpl;
    [|reflexivity].
  destruct (exit_price_of 100 sg) as [sx|]; simpl; [|reflexivity].
  pose proof (outcome_map_done _ _ _
    (test_strategy_undate clock clock' "Strategy 1" SignalReversal token
       100 sx st st' H)) as H1.
  destruct (test_strategy clock "Strategy 1" _ _ _ _ st) as [st1|];
    destruct (test_strategy clock' "Strategy 1" _ _ _ _ st') as [st1'|];
    simpl in *; try contradiction; [|now subst].
  pose proof (outcome_map_done _ _ _
    (test_strategy_undate clock clock' "Strategy 2" LongTermHold token
       100 hx st1 st1' H1)) as H2.
  destruct (test_strategy clock "Strategy 2" _ _ _ _ st1) as [st2|];
    destruct (test_strategy clock' "Strategy 2" _ _ _ _ st1') as [st2'|];
    simpl in *; try contradiction; [|now subst].
  now apply test_strategy_undate.
Qed.

Lemma simulation_loop_undate (clock clock' : nat -> Z)
    (tokens : list (gmap string pyval)) (st st' : locals) :
  undate_locals st = undate_locals st' ->
  outcome_map undate_locals (simulation_loop clock tokens st) =
  outcome_map undate_locals (simulation_loop clock' tokens st').
Proof.
  revert st st'. induction tokens as [|token tokens IH]; intros st st' H;
    simpl.
  - now rewrite H.
  - pose proof (outcome_map_done _ _ _
      (simulation_body_undate clock clock' st st' token H)) as H1.
    destruct (simulation_body clock st token) as [st1|];
      destruct (simulation_body clock' st' token) as [st1'|];
      simpl in *; try contradiction; [|now subst].
    now apply IH.
Qed.

Lemma filter_undate (f : trade -> bool) (l : list trade) :
  (forall x, f (undate_trade x) = f x) ->
  List.filter f (map undate_trade l) = map undate_trade (List.filter f l).
Proof.
  intros Hf. induction l as [|x l IH]; simpl; [reflexivity|].
  rewrite Hf. destruct (f x); simpl; now rewrite IH.
Qed.

Lemma for_each_drawdown_undate (l : list trade) (st : Q * Q) :
  for_each drawdown_body (map undate_trade l) st
  = for_each drawdown_body l st.
Proof.
  revert st. induction l as [|x l IH]; intros st; simpl; [reflexivity|].
  change (drawdown_body st (undate_trade x)) with (drawdown_body st x).
  destruct (drawdown_body st x); simpl; [apply IH | reflexivity].
Qed.

(** The metrics do not read the dates. *)
Lemma calculate_metrics_undate (self : t) :
  fst (calculate_metrics (undate_ledger self)) = fst (calculate_metrics self).
Proof.
  unfold calculate_metrics, mbind, read, lift, mret. cbn [id].
  change (trades (undate_ledger self))
    with (map undate_trade (trades self)).
  change (initial_capital (undate_ledger self)) with (initial_capital self).
  change (current_capital (undate_ledger self)) with (current_capital self).
  rewrite !filter_undate by reflexivity.
  rewrite for_each_drawdown_undate.
  rewrite !map_map, !length_map.
  destruct (for_each drawdown_body (trades self) (0, initial_capital self))
    as [scan|e3].
  all: destruct (trades self) as [|t0 l]; [reflexivity|].
  all: cbn [map].
  all: change (0 <? length (t0 :: l))%nat with true; cbv iota.
  all: destruct (truediv (of_nat _) (of_nat _)) as [r1|e1]; [|reflexivity].
  all: cbn [res_bind].
  all: destruct (truediv _ (initial_capital self)) as [r2|e2]; reflexivity.
Qed.

Lemma run_backtest_simulation_undate (clock clock' : nat -> Z) :
  undate_run (run_backtest_simulation clock) =
  undate_run (run_backtest_simulation clock').
Proof.
  unfold run_backtest_simulation, __init__.
  set (st0 := Locals (Backtester 10000 10000 ∅ [] []) [] 0).
  pose proof (outcome_map_done _ _ _
    (simulation_loop_undate clock clock' token_data st0 st0 eq_refl)) as H.
  destruct (simulation_loop clock token_data st0) as [st|];
    destruct (simulation_loop clock' token_data st0) as [st'|];
    simpl in *; try contradiction; [|now subst].
  pose proof (f_equal backtester H) as Hb.
  cbn [undate_locals backtester] in Hb.
  pose proof (calculate_metrics_state (backtester st)) as Hs.
  pose proof (calculate_metrics_state (backtester st')) as Hs'.
  pose proof (calculate_metrics_undate (backtester st)) as Hm.
  pose proof (calculate_metrics_undate (backtester st')) as Hm'.
  rewrite Hb, Hm' in Hm.
  destruct (calculate_metrics (backtester st)) as [r b];
    destruct (calculate_metrics (backtester st')) as [r' b'];
    simpl in *. subst b b' r'.
  destruct r as [m|e]; [|reflexivity].
  destruct (getitem m "final_capital"); simpl; [|reflexivity].
  destruct (getitem m "total_return"); simpl; [|reflexivity].
  destruct (getitem m "win_rate"); simpl; [|reflexivity].
  destruct (getitem m "total_trades"); simpl; [|reflexivity].
  unfold undate_run. simpl. now rewrite Hb.
Qed.

(** X23: the clock only dates the trades.  Whatever the readings of the
    clock, the driver ends in the same way, with the same metrics and the
    same ledger but for the entry and exit dates of its trades. *)
Theorem X23_clock_only_dates (clock clock' : nat -> Z) :
  undate_run (run_backtest_simulation clock) =
  undate_run (run_backtest_simulation clock').
Proof. apply run_backtest_simulation_undate. Qed.

Lemma Forall2_undate (l l0 : list trade) (ps : list (Q * Q)) :
  map undate_trade l = map undate_trade l0 ->
  Forall2 (fun t p => fst p <= t.(pnl_pct) /\ t.(pnl_pct) < snd p) l0 ps ->
  Forall2 (fun t p => fst p <= t.(pnl_pct) /\ t.(pnl_pct) < snd p) l ps.
Proof.
  revert l0 ps. induction l as [|x l IH]; intros [|x0 l0] ps [=] Hf.
  - exact Hf.
  - inversion Hf as [|? ? ? ? Hx Hl]; subst. constructor.
    + replace (pnl_pct x) with (pnl_pct x0) by congruence. exact Hx.
    + apply (IH l0); assumption.
Qed.

(** The run of the driver with a clock that always reads 0. *)
Lemma run_backtest_simulation_at_zero :
  match run_backtest_simulation (fun _ => 0%Z) with
  | Done (self, metrics) =>
      map (fun t => (symbol t, strategy t)) self.(trades) =
        [(PyStr "REQ", LongTermHoldStrategy.name);
         (PyStr "CRV", SignalReversalStrategy.name);
         (PyStr "CRV", TrendFollowingStrategy.name);
         (PyStr "GURU", TrendFollowingStrategy.name)] /\
      Forall2 (fun t p => fst p <= t.(pnl_pct) /\ t.(pnl_pct) < snd p)
        self.(trades)
        [(373.385, 373.395); (685.335, 685.345); (685.335, 685.345);
         (280.715, 280.725)] /\
      39714.625 <= self.(current_capital) /\
      self.(current_capital) < 39714.635 /\
      exists r w d a,
        metrics !! "total_return" = Some (Num r) /\
        297.145 <= r /\ r < 297.155 /\
        metrics !! "win_rate" = Some (Num w) /\ w == 100 /\
        metrics !! "max_drawdown" = Some (Num d) /\ d == 0 /\
        metrics !! "avg_win" = Some (Num a) /\
        506.195 <= a /\ a < 506.205 /\
        metrics !! "final_capital" = Some (Num self.(current_capital))
  | Failed _ => False
  end.
Proof.
  vm_compute.
  split; [reflexivity|].
  split; [repeat constructor; discriminate|].
  split; [discriminate|].
  split; [reflexivity|].
  eexists _, _, _, _.
  split; [reflexivity|].
  split; [discriminate|].
  split; [reflexivity|].
  split; [reflexivity|].
  split; [reflexivity|].
  split; [reflexivity|].
  split; [reflexivity|].
  split; [reflexivity|].
  split; [discriminate|].
  split; reflexivity.
Qed.

(** X19: the driver returns what its documentation reports, whatever the
    clock reads.  Four trades are made, in this order: REQ by the long-term
    hold strategy, CRV by the reversal and by the trend-following strategies
    and GURU by the trend-following strategy, with percentages that round
    to 373.39, 685.34, 685.34 and 280.72.  The final capital rounds to
    39714.63, the total return to 297.15 percent and the average win to
    506.20 percent; the win rate is 100 and the maximum drawdown 0. *)
Theorem X19_run_backtest_simulation (clock : nat -> Z) :
  exists self metrics,
    run_backtest_simulation clock = Done (self, metrics) /\
    map (fun t => (symbol t, strategy t)) self.(trades) =
      [(PyStr "REQ", LongTermHoldStrategy.name);
       (PyStr "CRV", SignalReversalStrategy.name);
       (PyStr "CRV", TrendFollowingStrategy.name);
       (PyStr "GURU", TrendFollowingStrategy.name)] /\
    Forall2 (fun t p => fst p <= t.(pnl_pct) /\ t.(pnl_pct) < snd p)
      self.(trades)
      [(373.385, 373.395); (685.335, 685.345); (685.335, 685.345);
       (280.715, 280.725)] /\
    39714.625 <= self.(current_capital) /\
    self.(current_capital) < 39714.635 /\
    exists r w d a,
      metrics !! "total_return" = Some (Num r) /\
      297.145 <= r /\ r < 297.155 /\
      metrics !! "win_rate" = Some (Num w) /\ w == 100 /\
      metrics !! "max_drawdown" = Some (Num d) /\ d == 0 /\
      metrics !! "avg_win" = Some (Num a) /\
      506.195 <= a /\ a < 506.205 /\
      metrics !! "final_capital" = Some (Num self.(current_capital)).
Proof.
  pose proof (run_backtest_simulation_undate clock (fun _ => 0%Z)) as Hu.
  pose proof run_backtest_simulation_at_zero as H.
  destruct (run_backtest_simulation (fun _ => 0%Z)) as [[b0 m0]|err];
    [|destruct H].
  destruct (run_backtest_simulation clock) as [[b m]|err]; [|discriminate Hu].
  apply outcome_map_done in Hu. cbn [fst snd] in Hu.
  pose proof (f_equal fst Hu) as Hb. pose proof (f_equal snd Hu) as Hm0.
  cbn [fst snd] in Hb, Hm0. subst m0. clear Hu.
  destruct H as (Hsym & Hpct & Hlo & Hhi & Hm).
  apply undate_ledger_inv in Hb as (_ & Hc & _ & Ht & _).
  exists b, m. split; [reflexivity|].
  split.
  { replace (map (fun t => (symbol t, strategy t)) (trades b))
      with (map (fun t => (symbol t, strategy t))
              (map undate_trade (trades b))) by (now rewrite map_map).
    rewrite Ht, map_map. exact Hsym. }
  split.
  { exact (Forall2_undate _ _ _ Ht Hpct). }
  rewrite Hc. split; [exact Hlo|]. split; [exact Hhi | exact Hm].
Qed.

End Driver.
